(** * Builder-metadata extraction (scripts/extract_builder_metadata.py)

    A shallow embedding of the metadata extractor: the decorator unwrapper,
    the type-annotation classifier, the signature and docstring collectors,
    the registry walk, the conversion to the extension format and [main].

    Python values are one untyped universe ([pyvalue]); objects with
    identity live in a heap, so wrapper chains may share or loop. Exceptions
    are an error monad ([result]) whose handlers follow the [except]
    clauses of the script. What the script obtains from the interpreter
    ([inspect.signature], [typing.get_type_hints], [inspect.getdoc],
    [inspect.getfile], the registry, [str] and [repr]) is a field of
    [runtime] or [rendering]; what an object answers to a comparison with
    [inspect.Parameter.empty] is a field of the object. *)

From Stdlib Require Import ZArith Ascii String.
From stdpp Require Import gmap strings list pretty.

Local Open Scope string_scope.
Local Open Scope list_scope.

(** ** Exceptions *)

Inductive exn_class :=
  | TypeError | ValueError | AttributeError | NameError | SyntaxError
  | OSError | FileNotFoundError | RuntimeError | RecursionError
  | ImportError | KeyError | SystemExit.

Global Instance exn_class_eq_dec : EqDecision exn_class.
Proof. solve_decision. Defined.

(** The parts of the built-in exception hierarchy the handlers can see. *)
Definition exn_base (c : exn_class) : option exn_class :=
  match c with
  | FileNotFoundError => Some OSError
  | RecursionError => Some RuntimeError
  | _ => None
  end.

Definition exn_isinstance (c handler : exn_class) : bool :=
  bool_decide (c = handler) ||
  match exn_base c with
  | Some b => bool_decide (b = handler)
  | None => false
  end.

Record exception := Exception { exc_class : exn_class; exc_msg : string }.

Inductive result (A : Type) :=
  | Ok (a : A)
  | Raise (e : exception).
Arguments Ok {A} a.
Arguments Raise {A} e.

Global Instance result_ret : MRet result := fun _ a => Ok a.
Global Instance result_bind : MBind result := fun _ _ f m =>
  match m with
  | Ok a => f a
  | Raise e => Raise e
  end.

(** [try: body except handlers as e: handler e] *)
Definition try_except {A} (body : result A) (handlers : list exn_class)
    (handler : exception → result A) : result A :=
  match body with
  | Ok a => Ok a
  | Raise e =>
      if existsb (exn_isinstance (exc_class e)) handlers then handler e
      else Raise e
  end.

Definition returns {A} (r : result A) : Prop := ∃ a, r = Ok a.

(** ** Python values *)

(** What [typing.get_origin] can return. *)
Inductive origin :=
  | typing_Literal
  | typing_Union
  | types_UnionType
  | abc_Sequence
  | other_origin (name : option string) (str_form : string).

Global Instance origin_eq_dec : EqDecision origin.
Proof. solve_decision. Defined.

#[warnings="-register-all"] Inductive pyvalue :=
  | VNone
  | VBool (b : bool)
  | VInt (z : Z)
  | VFloat (text : string)
  | VStr (s : string)
  | VList (items : list pyvalue)
  | VDict (items : list (string * pyvalue))
  | VObject (l : nat)
  | VEmpty
  | VClass (name : string)
  | VAlias (o : origin) (args : list pyvalue).

(** [VObject l] is the heap object at [l]; [VEmpty] is
    [inspect.Parameter.empty]; [VClass] is a plain class such as [int] or
    [NoneType]; [VAlias o args] is a typing construct whose [get_origin] is
    [o] and whose [get_args] is [args]: [Literal[1, 2]], [Optional[int]],
    [list[int]]. From Python 3.10 to 3.13 the expression [X | Y] between
    classes ([int | None], [list[int] | None]) builds a [types.UnionType],
    that is [VAlias types_UnionType [X; Y]]; when one side is a typing
    construct ([Literal["a"] | None], [List[int] | None]) it builds the
    [typing.Union], that is [VAlias typing_Union [X; Y]]. *)

Definition NoneType : pyvalue := VClass "NoneType".

(** A closure cell; [None] is an empty cell. *)
Definition cell := option pyvalue.

Record pyobj := {
  o_type_name : string;               (* type(o).__name__ *)
  o_callable : bool;                  (* callable(o) *)
  o_has_call : bool;                  (* hasattr(o, "__call__") *)
  o_truth : result bool;              (* bool(o) *)
  o_name : option string;             (* o.__name__ *)
  o_module : option string;           (* o.__module__ *)
  o_wrapped : option pyvalue;         (* o.__wrapped__ *)
  o_fn : option pyvalue;              (* o.fn *)
  o_wrapped_fn : option pyvalue;      (* o._wrapped_fn *)
  o_func : option pyvalue;            (* o.func *)
  o_closure : option (list cell);     (* o.__closure__, None when absent or None *)
  o_code : option (option Z);         (* o.__code__ and its co_firstlineno *)
  o_eq_empty : result pyvalue;        (* o == inspect.Parameter.empty *)
}.

(** ** Strings *)

Fixpoint startswith (p s : string) : bool :=
  match p, s with
  | EmptyString, _ => true
  | String a p', String b s' => bool_decide (a = b) && startswith p' s'
  | String _ _, EmptyString => false
  end.

(** [sub in s] *)
Fixpoint contains (sub s : string) : bool :=
  startswith sub s ||
  match s with
  | EmptyString => false
  | String _ s' => contains sub s'
  end.

Fixpoint drop_chars (n : nat) (s : string) : string :=
  match n, s with
  | S k, String _ s' => drop_chars k s'
  | _, _ => s
  end.

(** [s.replace(old, new)] for a non-empty [old]; [skip] counts the
    characters of a match still to be passed over. *)
Fixpoint replace_from (old new : string) (skip : nat) (s : string) : string :=
  match s with
  | EmptyString => EmptyString
  | String c s' =>
      match skip with
      | S k => replace_from old new k s'
      | O =>
          if startswith old s
          then new +:+ replace_from old new (String.length old - 1) s'
          else String c (replace_from old new 0 s')
      end
  end.

Definition replace (old new s : string) : string := replace_from old new 0 s.

Definition lower_char (c : ascii) : ascii :=
  let n := nat_of_ascii c in
  if (65 <=? n)%nat && (n <=? 90)%nat then ascii_of_nat (n + 32) else c.

Fixpoint lower (s : string) : string :=
  match s with
  | EmptyString => EmptyString
  | String c s' => String (lower_char c) (lower s')
  end.

Definition is_space (c : ascii) : bool :=
  let n := nat_of_ascii c in
  ((9 <=? n)%nat && (n <=? 13)%nat) || (28 <=? n)%nat && (n <=? 32)%nat.

Fixpoint lstrip (s : string) : string :=
  match s with
  | String c s' => if is_space c then lstrip s' else s
  | EmptyString => EmptyString
  end.

Fixpoint rstrip (s : string) : string :=
  match s with
  | EmptyString => EmptyString
  | String c s' =>
      match rstrip s' with
      | EmptyString => if is_space c then EmptyString else String c EmptyString
      | t => String c t
      end
  end.

Definition strip (s : string) : string := rstrip (lstrip s).

(** [s.split(sep, maxsplit)] for a one-character [sep]; [None] is no limit. *)
Fixpoint split_char (sep : ascii) (maxsplit : option nat) (s : string)
    : list string :=
  match s with
  | EmptyString => [EmptyString]
  | String c s' =>
      if bool_decide (c = sep) && negb (bool_decide (maxsplit = Some 0%nat))
      then EmptyString :: split_char sep (Nat.pred <$> maxsplit) s'
      else
        match split_char sep maxsplit s' with
        | first :: rest => String c first :: rest
        | [] => [String c EmptyString]
        end
  end.

Fixpoint join (sep : string) (parts : list string) : string :=
  match parts with
  | [] => EmptyString
  | [p] => p
  | p :: rest => p +:+ sep +:+ join sep rest
  end.

(** ** Dictionaries

    A Python [dict] keeps insertion order; assigning to a key that is
    present keeps its position. *)

Fixpoint dict_get {V} (k : string) (d : list (string * V)) : option V :=
  match d with
  | [] => None
  | (k', v) :: d' => if bool_decide (k' = k) then Some v else dict_get k d'
  end.

Fixpoint dict_set {V} (k : string) (v : V) (d : list (string * V))
    : list (string * V) :=
  match d with
  | [] => [(k, v)]
  | (k', v') :: d' =>
      if bool_decide (k' = k) then (k, v) :: d' else (k', v') :: dict_set k v d'
  end.

(** ** JSON

    [json.dumps] accepts [None], booleans, numbers, strings, lists and
    dictionaries of such, and raises [TypeError] on anything else. *)

Fixpoint json_serializable (v : pyvalue) : bool :=
  match v with
  | VNone | VBool _ | VInt _ | VFloat _ | VStr _ => true
  | VList items => forallb json_serializable items
  | VDict items => forallb (fun kv => let '(_, x) := kv in json_serializable x) items
  | VObject _ | VEmpty | VClass _ | VAlias _ _ => false
  end.

Definition json_dumps (v : pyvalue) : result unit :=
  if json_serializable v then Ok tt
  else Raise (Exception TypeError "Object is not JSON serializable").

(** ** What the interpreter provides *)

Record parameter := {
  p_name : string;
  p_annotation : pyvalue;      (* inspect.Parameter.empty when absent *)
  p_default : pyvalue;         (* inspect.Parameter.empty when absent *)
  p_kind : string;             (* param.kind.name *)
}.

Record signature := {
  sig_parameters : list parameter;
  sig_return_annotation : pyvalue;
}.

Record RegistryEntry := {
  entry_fn : pyvalue;
  allow_partial : bool;
  allow_parallel : bool;
  version_spec : string;       (* str(entry.version_spec) *)
}.

Record runtime := {
  heap : nat → pyobj;
  inspect_signature : pyvalue → result signature;
  get_type_hints : pyvalue → result (list (string * pyvalue));
  inspect_getdoc : pyvalue → option string;
  inspect_getfile : pyvalue → result (list string);   (* path components *)
  zetta_utils_package_path : list string;
  script_directory : string;          (* str(Path(__file__).parent) *)
  zetta_utils_version : string;       (* getattr(zetta_utils, "__version__", "unknown") *)
  DEFAULT_VERSION : string;
  REGISTRY : list (string * list RegistryEntry);
}.

(** [str] and [repr]. The text of an object that does not define them
    (["<object object at 0x7f3a5c1d2e90>"]) holds its address, which every
    process chooses anew; the rendering is therefore given per run. *)
Record rendering := {
  py_str : pyvalue → string;
  py_repr : pyvalue → string;
}.

Definition origin_name (o : origin) : option string :=
  match o with
  | typing_Literal => Some "Literal"
  | typing_Union => Some "Union"
  | types_UnionType => Some "UnionType"
  | abc_Sequence => Some "Sequence"
  | other_origin name _ => name
  end.

Definition origin_str (o : origin) : string :=
  match o with
  | typing_Literal => "typing.Literal"
  | typing_Union => "typing.Union"
  | types_UnionType => "<class 'types.UnionType'>"
  | abc_Sequence => "<class 'collections.abc.Sequence'>"
  | other_origin _ s => s
  end.

(** ** Attribute access *)

Section Attributes.
Context (rt : runtime).

(** A value that is not a heap object has none of the wrapper
    attributes; a class or a typing construct is callable and named. *)
Definition builtin_obj (type_name : string) (is_callable : bool)
    (truth : bool) (name : option string) : pyobj :=
  {| o_type_name := type_name; o_callable := is_callable;
     o_has_call := is_callable; o_truth := Ok truth; o_name := name;
     o_module := None; o_wrapped := None; o_fn := None;
     o_wrapped_fn := None; o_func := None; o_closure := None;
     o_code := None;
     o_eq_empty := Ok (VBool false) |}.

Definition attrs (v : pyvalue) : pyobj :=
  match v with
  | VObject l => heap rt l
  | VNone => builtin_obj "NoneType" false false None
  | VBool b => builtin_obj "bool" false b None
  | VInt z => builtin_obj "int" false (negb (z =? 0)%Z) None
  | VFloat t =>
      builtin_obj "float" false
        (negb (bool_decide (t = "0.0") || bool_decide (t = "-0.0"))) None
  | VStr s => builtin_obj "str" false (negb (bool_decide (s = ""))) None
  | VList items =>
      builtin_obj "list" false
        (match items with [] => false | _ => true end) None
  | VDict items =>
      builtin_obj "dict" false
        (match items with [] => false | _ => true end) None
  | VEmpty => builtin_obj "type" true true (Some "_empty")
  | VClass name => builtin_obj "type" true true (Some name)
  | VAlias o _ => builtin_obj "_GenericAlias" true true (origin_name o)
  end.

Definition py_callable (v : pyvalue) : bool := o_callable (attrs v).
Definition py_truth (v : pyvalue) : result bool := o_truth (attrs v).

(** [v == inspect.Parameter.empty]: the sentinel equals itself, a heap
    object answers through its own [__eq__] (any value, or an exception),
    and no other value equals the sentinel. *)
Definition py_eq_empty (v : pyvalue) : result pyvalue :=
  match v with
  | VEmpty => Ok (VBool true)
  | VObject l => o_eq_empty (heap rt l)
  | _ => Ok (VBool false)
  end.

(** [hasattr(o, a) and callable(getattr(o, a, None))] *)
Definition callable_attr (a : option pyvalue) : bool :=
  match a with
  | Some v => py_callable v
  | None => false
  end.

(** [cell.cell_contents]: reading an empty cell raises [ValueError]. *)
Definition cell_contents (c : cell) : result pyvalue :=
  match c with
  | Some v => Ok v
  | None => Raise (Exception ValueError "Cell is empty")
  end.

(** [o.__name__] *)
Definition get_name (o : pyobj) : result string :=
  match o_name o with
  | Some n => Ok n
  | None =>
      Raise (Exception AttributeError "object has no attribute '__name__'")
  end.

(** ** The decorator unwrapper *)

(** The [for cell in original_fn.__closure__] loop: the first cell
    whose content is picked, if any. *)
Fixpoint scan_closure (original_fn : pyobj) (cells : list cell)
    : result (option pyvalue) :=
  match cells with
  | [] => Ok None
  | c :: rest =>
      contents ← cell_contents c;
      truthy ← py_truth contents;
      if truthy && py_callable contents then
        match o_name (attrs contents) with
        | Some cell_name =>
            own_name ← get_name original_fn;
            if negb (bool_decide (cell_name = own_name))
               && negb (bool_decide (cell_name = "wrapped"))
               && negb (startswith "_" cell_name)
            then Ok (Some contents)
            else scan_closure original_fn rest
        | None => scan_closure original_fn rest
        end
      else scan_closure original_fn rest
  end.

(** One pass through the body of the [while] loop: [Some next] when a
    rule unwrapped something, [None] when no rule matched. *)
Definition unwrap_iteration (original_fn : pyvalue)
    : result (option pyvalue) :=
  let o := attrs original_fn in
  match o_wrapped o with
  | Some inner => Ok (Some inner)
  | None =>
  if callable_attr (o_fn o)
     && (contains "DictSupportingTensorOp" (o_type_name o) || o_has_call o)
  then Ok (o_fn o)
  else if callable_attr (o_wrapped_fn o) then Ok (o_wrapped_fn o)
  else if callable_attr (o_func o) then Ok (o_func o)
  else
    match o_closure o with
    | Some (c :: cells) => scan_closure o (c :: cells)
    | _ => Ok None
    end
  end.

Definition max_unwrap_depth : nat := 10.

(** [remaining] is [max_unwrap_depth - depth]. *)
Fixpoint unwrap_loop (remaining : nat) (original_fn : pyvalue)
    : result pyvalue :=
  match remaining with
  | O => Ok original_fn
  | S k =>
      step ← unwrap_iteration original_fn;
      match step with
      | Some next => unwrap_loop k next
      | None => Ok original_fn
      end
  end.

Definition unwrap_decorated_function (fn : pyvalue) : result pyvalue :=
  unwrap_loop max_unwrap_depth fn.

(** [fn] after following [__wrapped__] exactly [n] times. *)
Fixpoint follow_wrapped (n : nat) (fn : pyvalue) : option pyvalue :=
  match n with
  | O => Some fn
  | S k =>
      match o_wrapped (attrs fn) with
      | Some inner => follow_wrapped k inner
      | None => None
      end
  end.

(** No rule of the unwrapper applies to [fn]: a pass through the loop
    body ends with nothing unwrapped. *)
Definition matches_no_rule (fn : pyvalue) : Prop :=
  unwrap_iteration fn = Ok None.

(** A closure the scan can read: no cell is empty, the truth value of
    every content is defined, and the function that owns the closure has
    a name to compare with. *)
Definition closure_readable (o : pyobj) : Prop :=
  ∀ cells, o_closure o = Some cells →
    is_Some (o_name o) ∧
    Forall (fun c : cell => ∃ v, c = Some v ∧ returns (py_truth v)) cells.

End Attributes.

(** ** The type-annotation classifier *)

Definition get_origin (annotation : pyvalue) : option origin :=
  match annotation with
  | VAlias o _ => Some o
  | _ => None
  end.

Definition get_args (annotation : pyvalue) : list pyvalue :=
  match annotation with
  | VAlias _ args => args
  | _ => []
  end.

(** [hasattr(arg, "__origin__") and hasattr(arg, "__args__")]: a
    [types.UnionType] has arguments but no [__origin__]. *)
Definition has_origin_and_args (arg : pyvalue) : bool :=
  match arg with
  | VAlias o _ => negb (bool_decide (o = types_UnionType))
  | _ => false
  end.

Definition is_Literal (arg : pyvalue) : bool :=
  bool_decide (get_origin arg = Some typing_Literal).

Definition is_nil {A} (l : list A) : bool :=
  match l with
  | [] => true
  | _ => false
  end.

(** The body of [for arg in args] in [_extract_literals_from_annotation]:
    the values one union member adds. *)
Definition literals_of_member (arg : pyvalue) : list pyvalue :=
  if is_Literal arg then get_args arg
  else if negb (has_origin_and_args arg) then []
  else
    let inner_args := get_args arg in
    if negb (bool_decide (is_Some (get_origin arg)) && negb (is_nil inner_args))
    then []
    else
      flat_map
        (fun inner_arg => if is_Literal inner_arg then get_args inner_arg else [])
        inner_args.

Definition _extract_literals_from_annotation (o : option origin)
    (args : list pyvalue) : list pyvalue :=
  if bool_decide (o = Some typing_Literal) then args
  else if negb (bool_decide (o = Some typing_Union)) || is_nil args then []
  else flat_map literals_of_member args.

Definition sequence_names : list string :=
  ["sequence"; "list"; "tuple"; "iterable"].

(** [type(None) in args] *)
Definition is_NoneType (arg : pyvalue) : bool :=
  match arg with
  | VClass name => bool_decide (name = "NoneType")
  | _ => false
  end.

Record type_info := {
  type_string : string;
  ti_origin : option string;
  ti_args : list string;
  literals : list pyvalue;
  is_union : bool;
  is_optional : bool;
  is_sequence : bool;
  inner_type : option string;
}.

Section Classifier.
Context (rd : rendering).

Definition _check_sequence_type (o : option origin) (args : list pyvalue)
    : bool * option string :=
  match o with
  | None => (false, None)
  | Some o =>
      let first_arg (otherwise : option string) :=
        match args with
        | a :: _ => Some (py_str rd a)
        | [] => otherwise
        end in
      let '(is_sequence, inner_type) :=
        match origin_name o with
        | Some name =>
            if existsb (fun seq_name => contains seq_name (lower name))
                 sequence_names
            then (true, first_arg None)
            else (false, None)
        | None => (false, None)
        end in
      if bool_decide (o = abc_Sequence)
         || bool_decide (origin_str o = "typing.Sequence")
      then (true, first_arg inner_type)
      else (is_sequence, inner_type)
  end.

Definition extract_type_info (annotation : pyvalue) : type_info :=
  match annotation with
  | VEmpty =>
      {| type_string := "Any"; ti_origin := None; ti_args := [];
         literals := []; is_union := false; is_optional := false;
         is_sequence := false; inner_type := None |}
  | _ =>
      let o := get_origin annotation in
      let args := get_args annotation in
      let literals := _extract_literals_from_annotation o args in
      let is_union := bool_decide (o = Some typing_Union) in
      let is_optional := is_union && existsb is_NoneType args in
      let '(is_sequence, inner_type) := _check_sequence_type o args in
      {| type_string := py_str rd annotation;
         ti_origin := origin_str <$> o;
         ti_args := map (py_str rd) args;
         literals := literals;
         is_union := is_union;
         is_optional := is_optional;
         is_sequence := is_sequence;
         inner_type := inner_type |}
  end.

Definition get_type_annotation_string (annotation : pyvalue) : string :=
  type_string (extract_type_info annotation).

Definition optional_str (s : option string) : pyvalue :=
  match s with
  | Some s => VStr s
  | None => VNone
  end.

(** The dictionary [extract_type_info] returns, key by key. *)
Definition type_info_dict (ti : type_info) : list (string * pyvalue) :=
  [ ("type_string", VStr (type_string ti));
    ("origin", optional_str (ti_origin ti));
    ("args", VList (map VStr (ti_args ti)));
    ("literals", VList (literals ti));
    ("is_union", VBool (is_union ti));
    ("is_optional", VBool (is_optional ti));
    ("is_sequence", VBool (is_sequence ti));
    ("inner_type", optional_str (inner_type ti)) ].

(** [{k: str(v) if v is not None else None for k, v in type_info.items()}] *)
Definition stringify_items (d : list (string * pyvalue))
    : list (string * pyvalue) :=
  map (fun kv =>
         match kv with
         | (k, VNone) => (k, VNone)
         | (k, v) => (k, VStr (py_str rd v))
         end) d.

End Classifier.

(** ** Signatures *)

Record param_info := {
  pi_name : string;
  pi_type : string;
  pi_type_info : pyvalue;
  pi_required : pyvalue;              (* what default == empty returned *)
  pi_default : pyvalue;
  pi_kind : string;
  pi_default_repr : option string;    (* the key "default_repr", when set *)
}.

Record signature_info := {
  parameters : list (string * param_info);
  return_type : string;
  error : option string;              (* the key "error", when set *)
}.

Record docstring_info := {
  summary : string;
  description : string;
  doc_parameters : list (string * string);
}.

Definition is_None (v : pyvalue) : bool :=
  match v with
  | VNone => true
  | _ => false
  end.

Section Collector.
Context (rt : runtime) (rd : rendering).

(** The body of [for param_name, param in sig.parameters.items()]. The
    dictionary literal evaluates [param.default == inspect.Parameter.empty]
    twice: what the first comparison returns is stored under ["required"]
    as it is, the truth of the second chooses between [None] and the
    declared default. *)
Definition extract_parameter (type_hints : list (string * pyvalue))
    (param : parameter) : result param_info :=
  let actual_annotation :=
    default (p_annotation param) (dict_get (p_name param) type_hints) in
  let info := extract_type_info rd actual_annotation in
  let has_no_default : result bool :=
    compared ← py_eq_empty rt (p_default param); py_truth rt compared in
  required ← py_eq_empty rt (p_default param);
  is_sentinel ← has_no_default;
  let declared := if is_sentinel : bool then VNone else p_default param in
  '(default_value, default_repr) ←
    (if negb (is_None declared) then
       try_except
         (_ ← json_dumps declared; mret (declared, None))
         [TypeError; ValueError]
         (fun _ =>
            let as_text := VStr (py_str rd declared) in
            mret (as_text, Some (py_repr rd as_text)))
     else mret (declared, None));
  type_info_value ←
    try_except
      (_ ← json_dumps (VDict (type_info_dict info));
       mret (VDict (type_info_dict info)))
      [TypeError; ValueError]
      (fun _ => mret (VDict (stringify_items rd (type_info_dict info))));
  mret {| pi_name := p_name param;
          pi_type := type_string info;
          pi_type_info := type_info_value;
          pi_required := required;
          pi_default := default_value;
          pi_kind := p_kind param;
          pi_default_repr := default_repr |}.

Fixpoint extract_parameters (type_hints : list (string * pyvalue))
    (params : list parameter) (parameters : list (string * param_info))
    : result (list (string * param_info)) :=
  match params with
  | [] => Ok parameters
  | param :: rest =>
      info ← extract_parameter type_hints param;
      extract_parameters type_hints rest
        (dict_set (p_name param) info parameters)
  end.

Definition signature_failure (extraction_error : exception) : signature_info :=
  {| parameters := [];
     return_type := "Any";
     error := Some ("Failed to extract signature: " +:+ exc_msg extraction_error) |}.

Definition extract_function_signature (fn : pyvalue) : result signature_info :=
  try_except
    (original_fn ← unwrap_decorated_function rt fn;
     sig ← inspect_signature rt original_fn;
     type_hints ←
       try_except (get_type_hints rt original_fn)
         [TypeError; AttributeError; NameError]
         (fun _ => mret []);
     parameters ← extract_parameters type_hints (sig_parameters sig) [];
     mret {| parameters := parameters;
             return_type :=
               get_type_annotation_string rd (sig_return_annotation sig);
             error := None |})
    [TypeError; ValueError; AttributeError]
    (fun extraction_error => mret (signature_failure extraction_error)).

(** ** Docstrings *)

Record doc_state := {
  param_docs : list (string * string);
  current_param : option string;
  description_lines : list string;
  in_params_section : bool;
}.

(** The truth value of [current_param]: set, and not the empty string. *)
Definition current_param_set (st : doc_state) : bool :=
  match current_param st with
  | Some p => negb (bool_decide (p = ""))
  | None => false
  end.

(** [param_docs[current_param] += " " + line] *)
Definition append_param_doc (st : doc_state) (line : string)
    : result doc_state :=
  match current_param st with
  | Some p =>
      match dict_get p (param_docs st) with
      | Some doc =>
          Ok {| param_docs := dict_set p (doc +:+ " " +:+ line) (param_docs st);
                current_param := current_param st;
                description_lines := description_lines st;
                in_params_section := in_params_section st |}
      | None => Raise (Exception KeyError p)
      end
  | None => Raise (Exception KeyError "None")
  end.

(** The body of [for line in lines[1:]]. *)
Definition docstring_line (st : doc_state) (raw_line : string)
    : result doc_state :=
  let line := strip raw_line in
  if startswith ":param " line then
    match split_char ":" (Some 2%nat) line with
    | _ :: part1 :: part2 :: _ =>
        let param_name := strip (replace "param " "" part1) in
        Ok {| param_docs := dict_set param_name (strip part2) (param_docs st);
              current_param := Some param_name;
              description_lines := description_lines st;
              in_params_section := true |}
    | _ =>
        Ok {| param_docs := param_docs st;
              current_param := current_param st;
              description_lines := description_lines st;
              in_params_section := true |}
    end
  else if startswith ":" line && current_param_set st then
    Ok {| param_docs := param_docs st;
          current_param := None;
          description_lines := description_lines st;
          in_params_section := false |}
  else if current_param_set st && negb (bool_decide (line = "")) then
    append_param_doc st line
  else if negb (in_params_section st) && negb (bool_decide (line = ""))
          && negb (startswith ":" line) then
    Ok {| param_docs := param_docs st;
          current_param := current_param st;
          description_lines := description_lines st ++ [line];
          in_params_section := in_params_section st |}
  else Ok st.

Fixpoint docstring_lines (st : doc_state) (lines : list string)
    : result doc_state :=
  match lines with
  | [] => Ok st
  | line :: rest => st' ← docstring_line st line; docstring_lines st' rest
  end.

Definition parse_docstring (doc : string) : result docstring_info :=
  let lines := split_char "010" None doc in
  st ← docstring_lines
         {| param_docs := []; current_param := None;
            description_lines := []; in_params_section := false |}
         (tail lines);
  mret {| summary := hd "" lines;
          description := join " " (description_lines st);
          doc_parameters := param_docs st |}.

Definition extract_docstring_info (fn : pyvalue) : result docstring_info :=
  original_fn ← unwrap_decorated_function rt fn;
  match inspect_getdoc rt original_fn with
  | None | Some "" =>
      Ok {| summary := ""; description := ""; doc_parameters := [] |}
  | Some doc => parse_docstring doc
  end.

End Collector.

(** ** The registry walk *)

Record version_info := {
  function_name : string;
  module_name : string;
  file : string;
  line_number : Z;
  vi_allow_partial : bool;
  vi_allow_parallel : bool;
  vi_version_spec : string;
  vi_signature : signature_info;
  documentation : docstring_info;
  callable_type : string;
}.

Record builder_info := {
  bi_name : string;
  versions : list version_info;
  latest_version : option version_info;
}.

Record statistics := {
  total_builders : nat;
  total_entries : nat;
  builders_with_partial : nat;
  builders_with_parallel : nat;
}.

Record metadata := {
  md_version : string;
  generated_at : string;
  md_zetta_utils_version : string;
  builders : list (string * builder_info);
  stats : statistics;
}.

(** [p in q.parents or q == p], on path components. *)
Fixpoint path_within (p q : list string) : bool :=
  match p, q with
  | [], _ => true
  | a :: p', b :: q' => bool_decide (a = b) && path_within p' q'
  | _ :: _, [] => false
  end.

Definition path_str (p : list string) : string := "/" +:+ join "/" p.

Definition relative_path_str (p : list string) : string :=
  match p with
  | [] => "."
  | _ => join "/" p
  end.

Definition make_path_relative_to_package (absolute_path : list string)
    (zetta_package_path : list string) : string :=
  if path_within zetta_package_path absolute_path then
    "<zetta_utils>/" +:+
    relative_path_str (drop (length zetta_package_path - 1) absolute_path)
  else "<external>/" +:+ path_str absolute_path.

Section Registry.
Context (rt : runtime) (rd : rendering).

(** [original_fn.__code__.co_firstlineno] *)
Definition co_firstlineno (o : pyobj) : result Z :=
  match o_code o with
  | Some (Some n) => Ok n
  | _ => Raise (Exception AttributeError "co_firstlineno")
  end.

(** The body of [for entry in entries], without the two counters. *)
Definition extract_version (entry : RegistryEntry) : result version_info :=
  let fn := entry_fn entry in
  signature_info ← extract_function_signature rt rd fn;
  docstring_info ← extract_docstring_info rt fn;
  original_fn ← unwrap_decorated_function rt fn;
  let o := attrs rt original_fn in
  let function_name := default (o_type_name o) (o_name o) in
  let module_name := default "unknown" (o_module o) in
  file_path ←
    try_except
      (file_path ← inspect_getfile rt original_fn;
       mret (make_path_relative_to_package file_path
               (zetta_utils_package_path rt)))
      [TypeError; OSError]
      (fun _ => mret "unknown");
  line_number ←
    try_except
      (if bool_decide (is_Some (o_code o)) then co_firstlineno o else mret 0%Z)
      [AttributeError]
      (fun _ => mret 0%Z);
  mret {| function_name := function_name;
          module_name := module_name;
          file := file_path;
          line_number := line_number;
          vi_allow_partial := allow_partial entry;
          vi_allow_parallel := allow_parallel entry;
          vi_version_spec := version_spec entry;
          vi_signature := signature_info;
          documentation := docstring_info;
          callable_type := o_type_name (attrs rt fn) |}.

Definition count_if (b : bool) (n : nat) : nat := if b then S n else n.

(** [for entry in entries]: the versions so far and the two counters. *)
Fixpoint extract_versions (entries : list RegistryEntry)
    (acc : list version_info * nat * nat)
    : result (list version_info * nat * nat) :=
  match entries with
  | [] => Ok acc
  | entry :: rest =>
      let '(builder_versions, with_partial, with_parallel) := acc in
      version ← extract_version entry;
      extract_versions rest
        (builder_versions ++ [version],
         count_if (allow_partial entry) with_partial,
         count_if (allow_parallel entry) with_parallel)
  end.

(** [for builder_name, entries in REGISTRY.items()] *)
Fixpoint extract_builders (registry : list (string * list RegistryEntry))
    (acc : list (string * builder_info) * nat * nat * nat)
    : result (list (string * builder_info) * nat * nat * nat) :=
  match registry with
  | [] => Ok acc
  | (builder_name, entries) :: rest =>
      let '(builders, total, with_partial, with_parallel) := acc in
      '(builder_versions, with_partial', with_parallel') ←
        extract_versions entries ([], with_partial, with_parallel);
      extract_builders rest
        (dict_set builder_name
           {| bi_name := builder_name;
              versions := builder_versions;
              latest_version := head builder_versions |}
           builders,
         (total + length entries)%nat, with_partial', with_parallel')
  end.

Definition extract_builder_metadata : result metadata :=
  '(builders, total, with_partial, with_parallel) ←
    extract_builders (REGISTRY rt) ([], 0, 0, 0)%nat;
  mret {| md_version := "1.0.0";
          generated_at := script_directory rt;
          md_zetta_utils_version := zetta_utils_version rt;
          builders := builders;
          stats :=
            {| total_builders := length builders;
               total_entries := total;
               builders_with_partial := with_partial;
               builders_with_parallel := with_parallel |} |}.

(** ** The extension format *)

Definition version_spec_to_suffix (version_spec : string) : string :=
  if bool_decide (version_spec = ">=0.0.0") || startswith ">=" version_spec
  then ""
  else if startswith "==" version_spec then
    "_v" +:+ replace "." "_" (drop_chars 2 version_spec)
  else if startswith "<=" version_spec then
    "_v" +:+ replace "." "_" (drop_chars 2 version_spec)
  else
    "_v" +:+
    replace "=" "eq"
      (replace "<" "lt" (replace ">" "gt" (replace "." "_" version_spec))).

Definition convert_parameter (param_info : param_info) : pyvalue :=
  VDict
    [ ("name", VStr (pi_name param_info));
      ("type", VStr (pi_type param_info));
      ("type_info", pi_type_info param_info);
      ("required", pi_required param_info);
      ("default", pi_default param_info);
      ("kind", VStr (pi_kind param_info)) ].

Definition convert_documentation (doc : docstring_info) : pyvalue :=
  VDict
    [ ("summary", VStr (summary doc));
      ("description", VStr (description doc));
      ("parameters",
       VDict (map (fun kv => (kv.1, VStr kv.2)) (doc_parameters doc))) ].

(** The body of [for version_info in builder_info["versions"]]. *)
Definition convert_version (builder_name : string)
    (version_info : version_info) : pyvalue :=
  let parameters_array :=
    map (fun kv => convert_parameter kv.2)
      (parameters (vi_signature version_info)) in
  let version_suffix := version_spec_to_suffix (vi_version_spec version_info) in
  VDict
    [ ("name", VStr (builder_name +:+ version_suffix));
      ("parameters", VList parameters_array);
      ("version_spec", VStr (vi_version_spec version_info));
      ("metadata",
       VDict
         [ ("function_name", VStr (function_name version_info));
           ("module", VStr (module_name version_info));
           ("file", VStr (file version_info));
           ("line_number", VInt (line_number version_info));
           ("allow_partial", VBool (vi_allow_partial version_info));
           ("allow_parallel", VBool (vi_allow_parallel version_info));
           ("documentation",
            convert_documentation (documentation version_info)) ]) ].

Definition extension_builders (metadata : metadata) : list pyvalue :=
  flat_map
    (fun kv => map (convert_version kv.1) (versions kv.2))
    (builders metadata).

Definition convert_to_extension_format (metadata : metadata) : pyvalue :=
  VDict
    [ ("builders", VList (extension_builders metadata));
      ("default_version", VStr (DEFAULT_VERSION rt)) ].

(** ** Writing the files *)

(** [json.dump(obj, f, indent=2, default=str)]: the JSON value that
    reaches the file; whatever the encoder cannot serialize goes through
    [str]. The text of the file is a one-to-one rendering of this value. *)
Fixpoint json_dump (obj : pyvalue) : pyvalue :=
  match obj with
  | VNone | VBool _ | VInt _ | VFloat _ | VStr _ => obj
  | VList items => VList (map json_dump items)
  | VDict items => VDict (map (fun kv => let '(k, v) := kv in (k, json_dump v)) items)
  | VObject _ | VEmpty | VClass _ | VAlias _ _ => VStr (py_str rd obj)
  end.

Definition builder_metadata_json (output_dir : string) : string :=
  output_dir +:+ "/builder_metadata.json".

Definition package_info_json (output_dir : string) : string :=
  output_dir +:+ "/package_info.json".

(** [main], from the [try] on: the files of the output directory after
    the run. [sys.exit(1)] is the exception [SystemExit]. Opening and
    writing the two files in the directory that [main] has just created
    is taken to succeed. *)
Definition main (output_dir : string) (files : gmap string pyvalue)
    : result (gmap string pyvalue) :=
  try_except
    (metadata ← extract_builder_metadata;
     let extension_format := convert_to_extension_format metadata in
     let files :=
       <[builder_metadata_json output_dir := json_dump extension_format]> files in
     let package_info :=
       VDict [("zetta_utils_package_path",
               VStr (path_str (zetta_utils_package_path rt)))] in
     let files :=
       <[package_info_json output_dir := json_dump package_info]> files in
     mret files)
    [ImportError; RuntimeError; FileNotFoundError]
    (fun _ => Raise (Exception SystemExit "1")).

End Registry.

(** ** Reading the emitted JSON *)

(** [obj.get(key)] on an emitted JSON object. *)
Definition py_get (key : string) (obj : pyvalue) : option pyvalue :=
  match obj with
  | VDict items => dict_get key items
  | _ => None
  end.

(** [obj[i]] on an emitted JSON array. *)
Definition py_index (i : nat) (obj : pyvalue) : option pyvalue :=
  match obj with
  | VList items => items !! i
  | _ => None
  end.

(** The content of [builder_metadata.json] after a run that starts with
    no files, when the run completes. *)
Definition written (rt : runtime) (rd : rendering) (output_dir : string)
    : option pyvalue :=
  match main rt rd output_dir ∅ with
  | Ok files => files !! builder_metadata_json output_dir
  | Raise _ => None
  end.

(** [doc["builders"][b]["parameters"][p]] *)
Definition emitted_record (b p : nat) (doc : pyvalue) : option pyvalue :=
  builders ← py_get "builders" doc;
  builder ← py_index b builders;
  parameters ← py_get "parameters" builder;
  py_index p parameters.

(** ** What the per-entry handlers promise

    [handled handlers r]: [r] returns, or raises an exception that an
    [except handlers] clause catches. *)
Definition handled {A} (handlers : list exn_class) (r : result A) : Prop :=
  match r with
  | Ok _ => True
  | Raise e => existsb (exn_isinstance (exc_class e)) handlers = true
  end.

(** [param.default == inspect.Parameter.empty] as the loop body uses it:
    the value that is stored under [required], and its truth. *)
Definition compare_default (rt : runtime) (declared : pyvalue)
    : result (pyvalue * bool) :=
  required ← py_eq_empty rt declared;
  is_sentinel ← py_truth rt required;
  mret (required, is_sentinel).

(** The failures of one registry entry that the handlers of
    [extract_function_signature] and [extract_builder_metadata] cover. *)
Definition recoverable (rt : runtime) (entry : RegistryEntry) : Prop :=
  ∃ original_fn,
    unwrap_decorated_function rt (entry_fn entry) = Ok original_fn ∧
    handled [TypeError; ValueError; AttributeError]
      (inspect_signature rt original_fn) ∧
    handled [TypeError; AttributeError; NameError; ValueError]
      (get_type_hints rt original_fn) ∧
    handled [TypeError; OSError] (inspect_getfile rt original_fn) ∧
    (∀ sig param,
       inspect_signature rt original_fn = Ok sig →
       In param (sig_parameters sig) →
       handled [TypeError; ValueError; AttributeError]
         (compare_default rt (p_default param))).

(** The handlers of [typing.get_type_hints] inside the signature
    extraction. *)
Definition hint_handlers : list exn_class :=
  [TypeError; AttributeError; NameError].

(** The signature record once the signature and the type hints are
    there: the parameters with no error, or the failure record of what
    comparing a default raised. *)
Definition signature_outcome (rt : runtime) (rd : rendering)
    (type_hints : list (string * pyvalue)) (sig : signature)
    (info : signature_info) : Prop :=
  match extract_parameters rt rd type_hints (sig_parameters sig) [] with
  | Ok parameters =>
      info = {| parameters := parameters;
                return_type :=
                  get_type_annotation_string rd (sig_return_annotation sig);
                error := None |}
  | Raise e => info = signature_failure e
  end.

(** The record of an entry whose reflection failed in a covered way: a
    failed signature gives the failure record (no parameters, ["Any"], an
    error string); failed type hints are taken as empty, or give the
    failure record when only the outer handler catches them; a default
    whose comparison with the sentinel fails gives the failure record; a
    failed file lookup gives ["unknown"]; a missing line number gives
    [0]. *)
Definition degraded (rt : runtime) (rd : rendering) (entry : RegistryEntry)
    (record : version_info) : Prop :=
  ∃ original_fn,
    unwrap_decorated_function rt (entry_fn entry) = Ok original_fn ∧
    extract_version rt rd entry = Ok record ∧
    (∀ e, inspect_signature rt original_fn = Raise e →
          vi_signature record = signature_failure e) ∧
    (∀ sig type_hints, inspect_signature rt original_fn = Ok sig →
          get_type_hints rt original_fn = Ok type_hints →
          signature_outcome rt rd type_hints sig (vi_signature record)) ∧
    (∀ sig e, inspect_signature rt original_fn = Ok sig →
          get_type_hints rt original_fn = Raise e →
          if existsb (exn_isinstance (exc_class e)) hint_handlers
          then signature_outcome rt rd [] sig (vi_signature record)
          else vi_signature record = signature_failure e) ∧
    (∀ e, inspect_getfile rt original_fn = Raise e → file record = "unknown") ∧
    (o_code (attrs rt original_fn) = None ∨
     o_code (attrs rt original_fn) = Some None → line_number record = 0%Z).

(** While a docstring is parsed, the parameter being continued has an
    entry in [param_docs]. *)
Definition doc_state_ok (st : doc_state) : Prop :=
  ∀ p, current_param st = Some p → is_Some (dict_get p (param_docs st)).

(** The builder of a name that has no entries. *)
Definition empty_builder (builder_name : string) : string * builder_info :=
  (builder_name,
   {| bi_name := builder_name; versions := []; latest_version := None |}).

(** ** The emitted parameter record, as the specification words it

    The default of a parameter: [null] when the declared default compares
    equal to the empty sentinel, the declared value when it can be
    serialized, its string form otherwise; the raw-representation field is
    set in the last case only. *)
Definition emitted_default (rd : rendering) (declared : pyvalue)
    (is_sentinel : bool) : pyvalue :=
  if is_sentinel then VNone
  else if json_serializable declared then declared
  else VStr (py_str rd declared).

Definition emitted_default_repr (rd : rendering) (declared : pyvalue)
    (is_sentinel : bool) : option string :=
  if is_sentinel || json_serializable declared then None
  else Some (py_repr rd (VStr (py_str rd declared))).

Definition emitted_type_info (rd : rendering) (info : type_info) : pyvalue :=
  if json_serializable (VDict (type_info_dict info))
  then VDict (type_info_dict info)
  else VDict (stringify_items rd (type_info_dict info)).

(** The annotation the loop body classifies: the resolved hint, or the
    raw annotation. *)
Definition actual_annotation (type_hints : list (string * pyvalue))
    (param : parameter) : pyvalue :=
  default (p_annotation param) (dict_get (p_name param) type_hints).

Definition emitted_parameter (rd : rendering)
    (type_hints : list (string * pyvalue)) (param : parameter)
    (required : pyvalue) (is_sentinel : bool) : param_info :=
  let info := extract_type_info rd (actual_annotation type_hints param) in
  {| pi_name := p_name param;
     pi_type := type_string info;
     pi_type_info := emitted_type_info rd info;
     pi_required := required;
     pi_default := emitted_default rd (p_default param) is_sentinel;
     pi_kind := p_kind param;
     pi_default_repr := emitted_default_repr rd (p_default param) is_sentinel |}.

(** ** Two runs of the tool

    Two results agree when both return related values or both raise the
    same exception. *)
Definition result_rel {A} (R : A → A → Prop) (x y : result A) : Prop :=
  match x, y with
  | Ok a, Ok b => R a b
  | Raise e, Raise e' => e = e'
  | _, _ => False
  end.

(** The leaves of a value that [json.dump] cannot serialize and hands
    to [str]. *)
Fixpoint dump_leaves (obj : pyvalue) : list pyvalue :=
  match obj with
  | VNone | VBool _ | VInt _ | VFloat _ | VStr _ => []
  | VList items => flat_map dump_leaves items
  | VDict items => flat_map (fun kv => let '(_, v) := kv in dump_leaves v) items
  | VObject _ | VEmpty | VClass _ | VAlias _ _ => [obj]
  end.

(** A value that holds no heap object: its text is the same in every
    process. *)
Fixpoint object_free (v : pyvalue) : bool :=
  match v with
  | VObject _ => false
  | VList items => forallb object_free items
  | VDict items => forallb (fun kv => let '(_, x) := kv in object_free x) items
  | VAlias _ args => forallb object_free args
  | VNone | VBool _ | VInt _ | VFloat _ | VStr _ | VEmpty | VClass _ => true
  end.

(** The type hints the signature extraction goes on with. *)
Definition effective_hints (rt : runtime) (original_fn : pyvalue)
    : result (list (string * pyvalue)) :=
  try_except (get_type_hints rt original_fn) hint_handlers (fun _ => mret []).

(** The values of one parameter whose text reaches the file: the
    annotation and its arguments, the literals when they make
    [json.dumps] reject the type information, the default when it does
    not compare equal to the sentinel and [json.dumps] rejects it, and
    what [json.dump] cannot serialize of the comparison's result. *)
Definition parameter_texts (rt : runtime)
    (type_hints : list (string * pyvalue)) (param : parameter)
    : list pyvalue :=
  let annotation := actual_annotation type_hints param in
  let literal_values :=
    VList (_extract_literals_from_annotation (get_origin annotation)
             (get_args annotation)) in
  annotation :: get_args annotation ++
  (if json_serializable literal_values then [] else [literal_values]) ++
  match compare_default rt (p_default param) with
  | Ok (required, is_sentinel) =>
      (if is_sentinel || json_serializable (p_default param) then []
       else [p_default param]) ++
      dump_leaves required
  | Raise _ => []
  end.

Definition entry_texts (rt : runtime) (entry : RegistryEntry) (v : pyvalue)
    : Prop :=
  ∃ original_fn sig type_hints param,
    unwrap_decorated_function rt (entry_fn entry) = Ok original_fn ∧
    inspect_signature rt original_fn = Ok sig ∧
    effective_hints rt original_fn = Ok type_hints ∧
    In param (sig_parameters sig) ∧
    In v (parameter_texts rt type_hints param).

(** The values of the registry whose text reaches the file. *)
Definition stringified (rt : runtime) (v : pyvalue) : Prop :=
  ∃ builder_name entries entry,
    In (builder_name, entries) (REGISTRY rt) ∧
    In entry entries ∧
    entry_texts rt entry v.

(** Parameter dictionaries whose records are written alike by the two
    runs. *)
Definition same_parameters (r1 r2 : rendering)
    (ps qs : list (string * param_info)) : Prop :=
  Forall2 (fun p q => p.1 = q.1 ∧
                      json_dump r1 (convert_parameter p.2) =
                      json_dump r2 (convert_parameter q.2))
    ps qs.

Definition same_signature (r1 r2 : rendering) (s1 s2 : signature_info) : Prop :=
  same_parameters r1 r2 (parameters s1) (parameters s2).

(** Version records that the two runs write alike. *)
Definition same_version (r1 r2 : rendering) (v1 v2 : version_info) : Prop :=
  ∀ builder_name,
    json_dump r1 (convert_version builder_name v1) =
    json_dump r2 (convert_version builder_name v2).

Definition same_versions (r1 r2 : rendering)
    (x y : list version_info * nat * nat) : Prop :=
  Forall2 (same_version r1 r2) x.1.1 y.1.1 ∧ x.1.2 = y.1.2 ∧ x.2 = y.2.

Definition same_builders (r1 r2 : rendering)
    (bs cs : list (string * builder_info)) : Prop :=
  Forall2
    (fun b c => b.1 = c.1 ∧
                Forall2 (same_version r1 r2) (versions b.2) (versions c.2))
    bs cs.

Definition same_metadata (r1 r2 : rendering) (m1 m2 : metadata) : Prop :=
  same_builders r1 r2 (builders m1) (builders m2).

(** ** Sample objects, runtimes and renderings *)

Definition function_obj (name : string) (wrapped : option pyvalue)
    (closure : option (list cell)) : pyobj :=
  {| o_type_name := "function"; o_callable := true; o_has_call := true;
     o_truth := Ok true; o_name := Some name;
     o_module := Some "zetta_utils.sample"; o_wrapped := wrapped;
     o_fn := None; o_wrapped_fn := None; o_func := None;
     o_closure := closure; o_code := Some (Some 12%Z);
     o_eq_empty := Ok (VBool false) |}.

(** [object()] *)
Definition plain_obj : pyobj :=
  {| o_type_name := "object"; o_callable := false; o_has_call := false;
     o_truth := Ok true; o_name := None; o_module := None;
     o_wrapped := None; o_fn := None; o_wrapped_fn := None; o_func := None;
     o_closure := None; o_code := None;
     o_eq_empty := Ok (VBool false) |}.

Definition no_parameters : signature :=
  {| sig_parameters := []; sig_return_annotation := VEmpty |}.

Definition runtime_of (heap : nat → pyobj)
    (signatures : pyvalue → result signature)
    (hints : pyvalue → result (list (string * pyvalue)))
    (registry : list (string * list RegistryEntry)) : runtime :=
  {| heap := heap;
     inspect_signature := signatures;
     get_type_hints := hints;
     inspect_getdoc := fun _ => Some "Build a thing.";
     inspect_getfile := fun _ => Ok ["site"; "zetta_utils"; "sample.py"];
     zetta_utils_package_path := ["site"; "zetta_utils"];
     script_directory := "/repo/scripts";
     zetta_utils_version := "0.0.2";
     DEFAULT_VERSION := "0.0.2";
     REGISTRY := registry |}.

(** [depth] wrappers made with [functools.wraps] around a plain
    function: object [l] wraps object [l + 1]. *)
Definition chain_heap (depth : nat) (l : nat) : pyobj :=
  if (l <? depth)%nat
  then function_obj "wrapper" (Some (VObject (S l))) None
  else function_obj "target" None None.

Definition chain_runtime (depth : nat) : runtime :=
  runtime_of (chain_heap depth) (fun _ => Ok no_parameters) (fun _ => Ok []) [].

(** A function whose only closure cell was never filled. *)
Definition empty_cell_heap (l : nat) : pyobj :=
  function_obj "build" None (Some [None]).

Definition sample_entry : RegistryEntry :=
  {| entry_fn := VObject 0; allow_partial := true; allow_parallel := false;
     version_spec := ">=0.0.0" |}.

Definition empty_cell_runtime : runtime :=
  runtime_of empty_cell_heap (fun _ => Ok no_parameters) (fun _ => Ok [])
    [("build", [sample_entry])].

(** A function one of whose string annotations is not an expression:
    [typing.get_type_hints] raises [SyntaxError]. *)
Definition bad_hint_runtime : runtime :=
  runtime_of (fun _ => function_obj "build" None None)
    (fun _ => Ok no_parameters)
    (fun _ =>
       Raise (Exception SyntaxError "Forward reference must be an expression"))
    [("build", [sample_entry])].

(** A builder name that is left without entries. *)
Definition orphan_runtime : runtime :=
  runtime_of (fun _ => plain_obj) (fun _ => Ok no_parameters) (fun _ => Ok [])
    [("orphan", [])].

(** [def build(path: str, marker=object())]: object 1 is the default. *)
Definition marker_parameter : parameter :=
  {| p_name := "marker"; p_annotation := VEmpty; p_default := VObject 1;
     p_kind := "POSITIONAL_OR_KEYWORD" |}.

Definition optional_parameter : parameter :=
  {| p_name := "mode"; p_annotation := VAlias typing_Union [VClass "str"; NoneType];
     p_default := VNone; p_kind := "KEYWORD_ONLY" |}.

Definition path_parameter : parameter :=
  {| p_name := "path"; p_annotation := VClass "str"; p_default := VEmpty;
     p_kind := "POSITIONAL_OR_KEYWORD" |}.

Definition build_signature : signature :=
  {| sig_parameters := [path_parameter; marker_parameter];
     sig_return_annotation := VEmpty |}.

Definition marker_runtime : runtime :=
  runtime_of
    (fun l => match l with O => function_obj "build" None None | _ => plain_obj end)
    (fun _ => Ok build_signature) (fun _ => Ok [])
    [("build", [sample_entry])].

(** The text of a value inside a typing construct. *)
Fixpoint arg_repr (address : string) (v : pyvalue) : string :=
  match v with
  | VNone => "None"
  | VBool true => "True"
  | VBool false => "False"
  | VInt z => pretty z
  | VFloat t => t
  | VStr s => "'" +:+ s +:+ "'"
  | VList items => "[" +:+ join ", " (map (arg_repr address) items) +:+ "]"
  | VDict items =>
      "{" +:+
      join ", "
        (map (fun kv => let '(k, x) := kv in
                        "'" +:+ k +:+ "': " +:+ arg_repr address x) items)
      +:+ "}"
  | VObject _ => "<object object at " +:+ address +:+ ">"
  | VEmpty => "<class 'inspect._empty'>"
  | VClass name => name
  | VAlias types_UnionType args => join " | " (map (arg_repr address) args)
  | VAlias o args =>
      origin_str o +:+ "[" +:+ join ", " (map (arg_repr address) args) +:+ "]"
  end.

(** A run in which the objects without a [__repr__] of their own print
    the given address. *)
Definition render_at (address : string) : rendering :=
  {| py_str := fun v =>
       match v with
       | VStr s => s
       | VClass name => "<class '" +:+ name +:+ "'>"
       | _ => arg_repr address v
       end;
     py_repr := fun v =>
       match v with
       | VClass name => "<class '" +:+ name +:+ "'>"
       | _ => arg_repr address v
       end |}.

Definition first_run : rendering := render_at "0x7f3a5c1d2e90".
Definition second_run : rendering := render_at "0x7f9b1c0a7b50".

(** A built-in function registered as a builder: it has no signature,
    no source file and no code object. *)
Definition builtin_obj_len : pyobj :=
  {| o_type_name := "builtin_function_or_method"; o_callable := true;
     o_has_call := true; o_truth := Ok true; o_name := Some "len";
     o_module := Some "builtins"; o_wrapped := None; o_fn := None;
     o_wrapped_fn := None; o_func := None; o_closure := None;
     o_code := None;
     o_eq_empty := Ok (VBool false) |}.

Definition builtin_runtime : runtime :=
  {| heap := fun _ => builtin_obj_len;
     inspect_signature := fun _ =>
       Raise (Exception ValueError "no signature found for builtin");
     get_type_hints := fun _ => Ok [];
     inspect_getdoc := fun _ => Some "Return the number of items.";
     inspect_getfile := fun _ =>
       Raise (Exception TypeError "<built-in function len> is not a module");
     zetta_utils_package_path := ["site"; "zetta_utils"];
     script_directory := "/repo/scripts";
     zetta_utils_version := "0.0.2";
     DEFAULT_VERSION := "0.0.2";
     REGISTRY := [("len", [sample_entry])] |}.

(** A version record with the given specifier. *)
Definition sample_version (spec : string) : version_info :=
  {| function_name := "build"; module_name := "zetta_utils.sample";
     file := "<zetta_utils>/zetta_utils/sample.py"; line_number := 12%Z;
     vi_allow_partial := true; vi_allow_parallel := false;
     vi_version_spec := spec;
     vi_signature := {| parameters := []; return_type := "Any"; error := None |};
     documentation :=
       {| summary := "Build a thing."; description := "";
          doc_parameters := [] |};
     callable_type := "function" |}.

(** [doc["builders"][b]["parameters"][p]["default"]] of the file a run
    writes. *)
Definition written_default (rt : runtime) (rd : rendering) (b p : nat)
    : option pyvalue :=
  doc ← written rt rd "out";
  record ← emitted_record b p doc;
  py_get "default" record.

(** ** More of the unwrapper, the walk and the files *)

(** [unwrap_path rt n fn g]: [n] passes through the body of the loop,
    each of which unwrapped something, lead from [fn] to [g]. *)
Inductive unwrap_path (rt : runtime) : nat → pyvalue → pyvalue → Prop :=
  | unwrap_path_here (fn : pyvalue) : unwrap_path rt 0 fn fn
  | unwrap_path_step (n : nat) (fn next g : pyvalue) :
      unwrap_iteration rt fn = Ok (Some next) →
      unwrap_path rt n next g →
      unwrap_path rt (S n) fn g.

(** A decorator that does not use [functools.wraps]: the wrapper (object
    0) keeps a retry count and the decorated function (object 1) in its
    closure. *)
Definition closure_heap (l : nat) : pyobj :=
  match l with
  | O => function_obj "wrapper" None (Some [Some (VInt 3); Some (VObject 1)])
  | _ => function_obj "resample" None None
  end.

Definition closure_runtime : runtime :=
  runtime_of closure_heap (fun _ => Ok build_signature) (fun _ => Ok [])
    [("resample", [sample_entry])].

(** Every entry of the registry, builder after builder. *)
Definition all_entries (rt : runtime) : list RegistryEntry :=
  concat (REGISTRY rt).*2.

(** A registry with two builders: [build] has a current and a pinned
    version, [load] has one version that cannot be partial. *)
Definition versions_runtime : runtime :=
  runtime_of (fun _ => function_obj "build" None None)
    (fun _ => Ok build_signature) (fun _ => Ok [])
    [("build",
      [{| entry_fn := VObject 0; allow_partial := true;
          allow_parallel := true; version_spec := ">=0.0.4" |};
       {| entry_fn := VObject 1; allow_partial := true;
          allow_parallel := false; version_spec := "==0.0.3" |}]);
     ("load",
      [{| entry_fn := VObject 2; allow_partial := false;
          allow_parallel := true; version_spec := ">=0.0.0" |}])].

(** A property of the value a computation returns, if it returns. *)
Definition result_all {A} (P : A → Prop) (r : result A) : Prop :=
  match r with
  | Ok a => P a
  | Raise _ => True
  end.

(** A parameter record whose type information and default can be
    serialized. *)
Definition serializable_parameter (info : param_info) : Prop :=
  json_serializable (pi_type_info info) = true ∧
  json_serializable (pi_default info) = true.

Definition serializable_version (v : version_info) : Prop :=
  Forall (fun kv : string * param_info => serializable_parameter kv.2)
    (parameters (vi_signature v)).

(** A version record whose [required] fields are values of JSON. *)
Definition plain_required (v : version_info) : Prop :=
  Forall (fun kv : string * param_info =>
            json_serializable (pi_required kv.2) = true)
    (parameters (vi_signature v)).




(** A registry whose defaults and annotations hold no object. *)
Definition plain_signature : signature :=
  {| sig_parameters := [path_parameter; optional_parameter];
     sig_return_annotation := VEmpty |}.

Definition plain_runtime : runtime :=
  runtime_of (fun _ => function_obj "build" None None)
    (fun _ => Ok plain_signature) (fun _ => Ok [])
    [("build", [sample_entry])].

(** * Properties *)
Local Open Scope nat_scope.

(** ** The decorator unwrapper *)

Lemma unwrap_iteration_wrapped (rt : runtime) (fn inner : pyvalue) :
  o_wrapped (attrs rt fn) = Some inner →
  unwrap_iteration rt fn = Ok (Some inner).
Proof. unfold unwrap_iteration. by intros ->. Qed.

(** A chain of [n] back-references is walked to its end when the loop
    has at least [n] iterations left; it stops there by exhaustion, or
    because no rule applies to the end of the chain. *)
Lemma unwrap_loop_reaches (rt : runtime) (n : nat) :
  ∀ k fn inner,
    follow_wrapped rt n fn = Some inner →
    n ≤ k →
    (n < k → matches_no_rule rt inner) →
    unwrap_loop rt k fn = Ok inner.
Proof.
  induction n as [|n IH]; intros k fn inner Hchain Hle Hstop.
  - injection Hchain as <-. destruct k as [|k]; [done|].
    cbn. rewrite Hstop by lia. done.
  - cbn in Hchain. destruct (o_wrapped (attrs rt fn)) as [w|] eqn:Hw; [|done].
    destruct k as [|k]; [lia|].
    cbn. rewrite (unwrap_iteration_wrapped _ _ _ Hw). cbn.
    apply IH; [done|lia|]. intros ?. apply Hstop. lia.
Qed.

(** A longer chain is walked for as many steps as the loop has. *)
Lemma unwrap_loop_capped (rt : runtime) (k : nat) :
  ∀ n fn inner,
    follow_wrapped rt n fn = Some inner →
    k ≤ n →
    ∃ at_cap, follow_wrapped rt k fn = Some at_cap ∧
              unwrap_loop rt k fn = Ok at_cap.
Proof.
  induction k as [|k IH]; intros n fn inner Hchain Hle.
  - by exists fn.
  - destruct n as [|n]; [lia|]. cbn in Hchain.
    destruct (o_wrapped (attrs rt fn)) as [w|] eqn:Hw; [|done].
    destruct (IH n w inner Hchain) as (at_cap & Hfollow & Hloop); [lia|].
    exists at_cap. cbn. rewrite Hw, (unwrap_iteration_wrapped _ _ _ Hw). done.
Qed.

(** C1. A callable wrapped [n] times through [__wrapped__] around a
    callable that matches no unwrap rule: for [n ≤ 10] the unwrapper
    returns the innermost callable; for [n > 10] it returns the callable
    reached after exactly 10 steps. *)
Theorem unwrap_wrapped_chain (rt : runtime) (n : nat) (fn innermost : pyvalue) :
  follow_wrapped rt n fn = Some innermost →
  matches_no_rule rt innermost →
  (n ≤ 10 → unwrap_decorated_function rt fn = Ok innermost) ∧
  (n > 10 → ∃ tenth, follow_wrapped rt 10 fn = Some tenth ∧
                     unwrap_decorated_function rt fn = Ok tenth).
Proof.
  intros Hchain Hstop. split; intros Hn.
  - by apply (unwrap_loop_reaches rt n).
  - apply (unwrap_loop_capped rt 10 n fn innermost Hchain).
    unfold gt in Hn. lia.
Qed.

Lemma unwrap_wrapped_chain_witness :
  unwrap_decorated_function (chain_runtime 3) (VObject 0) = Ok (VObject 3) ∧
  ∃ tenth, follow_wrapped (chain_runtime 12) 10 (VObject 0) = Some tenth ∧
           unwrap_decorated_function (chain_runtime 12) (VObject 0) = Ok tenth.
Proof.
  split.
  - apply (proj1 (unwrap_wrapped_chain (chain_runtime 3) 3 (VObject 0)
                    (VObject 3) eq_refl eq_refl)).
    lia.
  - apply (proj2 (unwrap_wrapped_chain (chain_runtime 12) 12 (VObject 0)
                    (VObject 12) eq_refl eq_refl)).
    lia.
Defined.

(** An ordinary function, without wrapper attributes and without a
    closure, matches no rule. *)
Lemma plain_function_matches_no_rule (rt : runtime) (fn : pyvalue) :
  o_wrapped (attrs rt fn) = None →
  callable_attr rt (o_fn (attrs rt fn)) = false →
  callable_attr rt (o_wrapped_fn (attrs rt fn)) = false →
  callable_attr rt (o_func (attrs rt fn)) = false →
  o_closure (attrs rt fn) = None ∨ o_closure (attrs rt fn) = Some [] →
  matches_no_rule rt fn.
Proof.
  intros Hwrapped Hfn Hwrapped_fn Hfunc Hclosure.
  unfold matches_no_rule, unwrap_iteration.
  rewrite Hwrapped, Hfn, Hwrapped_fn, Hfunc. cbn.
  by destruct Hclosure as [-> | ->].
Qed.

(** The scan of a readable closure returns. *)
Lemma scan_closure_returns (rt : runtime) (o : pyobj) (cells : list cell) :
  is_Some (o_name o) →
  Forall (fun c : cell => ∃ v, c = Some v ∧ returns (py_truth rt v)) cells →
  returns (scan_closure rt o cells).
Proof.
  intros [own_name Hname].
  induction 1 as [|c cells (v & -> & [truthy Htruth]) _ IH]; [by eexists|].
  cbn. rewrite Htruth. cbn.
  destruct (truthy && py_callable rt v); [|exact IH].
  destruct (o_name (attrs rt v)) as [cell_name|]; [|exact IH].
  unfold get_name. rewrite Hname. cbn.
  destruct (_ && _); [by eexists|exact IH].
Qed.

(** Outside the unreadable closures the unwrapper always returns, within
    its ten iterations. *)
Lemma unwrap_returns_on_readable_closures (rt : runtime) :
  (∀ v, closure_readable rt (attrs rt v)) →
  ∀ fn, returns (unwrap_decorated_function rt fn).
Proof.
  intros Hreadable. unfold unwrap_decorated_function.
  generalize max_unwrap_depth as remaining.
  induction remaining as [|remaining IH]; intros fn; [by eexists|].
  assert (returns (unwrap_iteration rt fn)) as [step Hstep].
  { unfold unwrap_iteration.
    destruct (o_wrapped (attrs rt fn)); [by eexists|].
    destruct (_ && _); [by eexists|].
    destruct (callable_attr rt (o_wrapped_fn _)); [by eexists|].
    destruct (callable_attr rt (o_func _)); [by eexists|].
    destruct (o_closure (attrs rt fn)) as [[|c cells]|] eqn:Hclosure;
      [by eexists| |by eexists].
    destruct (Hreadable fn _ Hclosure) as [Hname Hcells].
    by apply scan_closure_returns. }
  cbn. rewrite Hstep. cbn. destruct step as [next|]; [apply IH|by eexists].
Qed.

(** When no rule applies the callable is returned as it is. *)
Lemma unwrap_no_rule (rt : runtime) (fn : pyvalue) :
  matches_no_rule rt fn → unwrap_decorated_function rt fn = Ok fn.
Proof.
  intros Hstop. unfold unwrap_decorated_function, max_unwrap_depth. cbn.
  by rewrite Hstop.
Qed.

(** C2. The closure scan reads [cell.cell_contents] without a guard: on
    a function whose closure holds an empty cell the unwrapper raises
    [ValueError] instead of returning the callable. *)
Theorem unwrap_raises_on_empty_cell :
  unwrap_decorated_function empty_cell_runtime (VObject 0) =
    Raise (Exception ValueError "Cell is empty").
Proof. reflexivity. Qed.

(** ** The type-annotation classifier *)




Lemma extract_type_info_literals (rd : rendering) (annotation : pyvalue) :
  literals (extract_type_info rd annotation) =
    _extract_literals_from_annotation (get_origin annotation)
      (get_args annotation).
Proof.
  destruct annotation; try reflexivity; unfold extract_type_info;
    by destruct (_check_sequence_type rd _ _).
Qed.




(** C4. For an annotation whose origin is [typing.Literal] the literals
    are exactly the arguments of the annotation, in their order. *)
Theorem literal_annotation_literals (rd : rendering) (annotation : pyvalue) :
  get_origin annotation = Some typing_Literal →
  literals (extract_type_info rd annotation) = get_args annotation.
Proof.
  intros Horigin. rewrite extract_type_info_literals.
  unfold _extract_literals_from_annotation. by rewrite Horigin.
Qed.

Lemma literal_annotation_literals_witness :
  literals (extract_type_info first_run
              (VAlias typing_Literal [VStr "nearest"; VStr "linear"; VInt 3])) =
    [VStr "nearest"; VStr "linear"; VInt 3].
Proof.
  apply (literal_annotation_literals first_run
           (VAlias typing_Literal [VStr "nearest"; VStr "linear"; VInt 3])).
  reflexivity.
Defined.

(** ** Version suffixes *)

Lemma append_empty_r (s : string) : s +:+ "" = s.
Proof.
  induction s as [|c s IH]; [done|].
  change (String c (s +:+ "") = String c s). by rewrite IH.
Qed.

(** C5. The specifier ["==1.2.3"] gives the suffix ["_v1_2_3"] and the
    exported name is the base name followed by it; a specifier that
    starts with [">="] gives no suffix and the base name itself. *)
Theorem version_suffix_names (builder_name : string) (info : version_info) :
  version_spec_to_suffix "==1.2.3" = "_v1_2_3" ∧
  (vi_version_spec info = "==1.2.3" →
   py_get "name" (convert_version builder_name info) =
     Some (VStr (builder_name +:+ "_v1_2_3"))) ∧
  (startswith ">=" (vi_version_spec info) = true →
   version_spec_to_suffix (vi_version_spec info) = "" ∧
   py_get "name" (convert_version builder_name info) =
     Some (VStr builder_name)).
Proof.
  split; [reflexivity|]. split.
  - intros Hspec. cbn. by rewrite Hspec.
  - intros Hprefix.
    assert (version_spec_to_suffix (vi_version_spec info) = "") as Hsuffix.
    { unfold version_spec_to_suffix. rewrite Hprefix.
      by rewrite orb_true_r. }
    split; [done|]. cbn. by rewrite Hsuffix, append_empty_r.
Qed.

Lemma version_suffix_names_witness :
  py_get "name" (convert_version "build" (sample_version "==1.2.3")) =
    Some (VStr "build_v1_2_3") ∧
  py_get "name" (convert_version "build" (sample_version ">=0.0.0")) =
    Some (VStr "build").
Proof.
  split.
  - apply (proj1 (proj2 (version_suffix_names "build"
                           (sample_version "==1.2.3")))).
    reflexivity.
  - apply (proj2 (proj2 (version_suffix_names "build"
                           (sample_version ">=0.0.0")))).
    reflexivity.
Defined.

(** ** Parameters *)

(** The loop body compares the default with the sentinel, and builds the
    record from what the comparison gave; past the comparison nothing
    raises: [json.dumps] fails with [TypeError] only, which both handlers
    catch. *)
Lemma extract_parameter_emitted (rt : runtime) (rd : rendering)
    (type_hints : list (string * pyvalue)) (param : parameter) :
  extract_parameter rt rd type_hints param =
    (compared ← compare_default rt (p_default param);
     mret (emitted_parameter rd type_hints param compared.1 compared.2)).
Proof.
  unfold extract_parameter, compare_default, emitted_parameter,
    actual_annotation, emitted_type_info, emitted_default,
    emitted_default_repr, json_dumps.
  destruct (py_eq_empty rt (p_default param)) as [raw|e]; [|done].
  cbn [mbind result_bind].
  destruct (py_truth rt raw) as [[]|e]; [| |done];
    cbn [mbind result_bind mret result_ret fst snd is_None negb orb];
    destruct (json_serializable (VDict _)) eqn:Hinfo;
    try reflexivity;
    destruct (p_default param) eqn:Hdefault; try reflexivity;
    cbn [is_None negb orb];
    match goal with
    | |- context [json_serializable ?v] =>
        destruct (json_serializable v) eqn:Hjson; try discriminate Hjson
    end; reflexivity.
Qed.


(** What [extract_parameter] returns is built from a comparison that
    returned. *)
Lemma extract_parameter_Ok (rt : runtime) (rd : rendering)
    (type_hints : list (string * pyvalue)) (param : parameter)
    (info : param_info) :
  extract_parameter rt rd type_hints param = Ok info →
  ∃ required is_sentinel,
    compare_default rt (p_default param) = Ok (required, is_sentinel) ∧
    info = emitted_parameter rd type_hints param required is_sentinel.
Proof.
  rewrite extract_parameter_emitted.
  destruct (compare_default rt (p_default param)) as [[required is_sentinel]|e];
    [|done].
  intros [= <-]. by eexists _, _.
Qed.








(** ** Dictionaries *)

Lemma dict_get_set_eq {V} (k : string) (v : V) (d : list (string * V)) :
  dict_get k (dict_set k v d) = Some v.
Proof.
  induction d as [|[k' v'] d IH]; cbn.
  - by rewrite bool_decide_eq_true_2.
  - case_bool_decide as Hk; cbn.
    + by rewrite bool_decide_eq_true_2.
    + by rewrite bool_decide_eq_false_2.
Qed.

Lemma dict_get_set_ne {V} (k k' : string) (v : V) (d : list (string * V)) :
  k ≠ k' → dict_get k' (dict_set k v d) = dict_get k' d.
Proof.
  intros Hne. induction d as [|[k0 v0] d IH]; cbn.
  - by rewrite bool_decide_eq_false_2.
  - case_bool_decide as Hk; cbn.
    + subst k0. by rewrite !bool_decide_eq_false_2.
    + by rewrite IH.
Qed.

(** Assigning to a key that is not there appends it. *)
Lemma dict_set_fresh {V} (k : string) (v : V) (d : list (string * V)) :
  k ∉ d.*1 → dict_set k v d = d ++ [(k, v)].
Proof.
  induction d as [|[k' v'] d IH]; intros Hfresh; [done|].
  cbn in *. apply not_elem_of_cons in Hfresh as [Hne Hfresh].
  rewrite bool_decide_eq_false_2 by congruence. by rewrite IH.
Qed.

(** ** Signatures *)

(** The loop over the parameters raises what a comparison of a default
    raises, and nothing else. *)
Lemma extract_parameters_handled (rt : runtime) (rd : rendering)
    (handlers : list exn_class) (type_hints : list (string * pyvalue))
    (params : list parameter) :
  (∀ param, In param params →
     handled handlers (compare_default rt (p_default param))) →
  ∀ parameters,
    handled handlers (extract_parameters rt rd type_hints params parameters).
Proof.
  induction params as [|param params IH]; intros Hall parameters; [done|].
  cbn [extract_parameters]. rewrite extract_parameter_emitted.
  pose proof (Hall param (or_introl eq_refl)) as Hparam.
  destruct (compare_default rt (p_default param)) as [compared|e];
    [|exact Hparam].
  cbn [mbind result_bind mret result_ret]. apply IH.
  intros p Hp. apply Hall. by right.
Qed.

(** Once the signature and the hints are there, the rest of the [try]
    body gives the outcome that [signature_outcome] describes. *)
Lemma signature_outcome_handled (rt : runtime) (rd : rendering)
    (type_hints : list (string * pyvalue)) (sig : signature) :
  (∀ param, In param (sig_parameters sig) →
     handled [TypeError; ValueError; AttributeError]
       (compare_default rt (p_default param))) →
  ∃ info,
    try_except
      (parameters ← extract_parameters rt rd type_hints (sig_parameters sig) [];
       mret {| parameters := parameters;
               return_type :=
                 get_type_annotation_string rd (sig_return_annotation sig);
               error := None |})
      [TypeError; ValueError; AttributeError]
      (fun extraction_error => mret (signature_failure extraction_error)) =
      Ok info ∧
    signature_outcome rt rd type_hints sig info.
Proof.
  intros Hall. unfold signature_outcome.
  pose proof (extract_parameters_handled rt rd _ type_hints _ Hall [])
    as Hhandled.
  destruct (extract_parameters rt rd type_hints (sig_parameters sig) [])
    as [parameters|e].
  - eexists. split; reflexivity.
  - cbn [mbind result_bind try_except]. unfold handled in Hhandled.
    rewrite Hhandled. eexists. split; reflexivity.
Qed.

(** The signature record of a callable that unwraps, case by case. *)
Lemma extract_function_signature_handled (rt : runtime) (rd : rendering)
    (fn original_fn : pyvalue) :
  unwrap_decorated_function rt fn = Ok original_fn →
  handled [TypeError; ValueError; AttributeError]
    (inspect_signature rt original_fn) →
  handled [TypeError; AttributeError; NameError; ValueError]
    (get_type_hints rt original_fn) →
  (∀ sig param,
     inspect_signature rt original_fn = Ok sig →
     In param (sig_parameters sig) →
     handled [TypeError; ValueError; AttributeError]
       (compare_default rt (p_default param))) →
  ∃ info,
    extract_function_signature rt rd fn = Ok info ∧
    (∀ e, inspect_signature rt original_fn = Raise e →
          info = signature_failure e) ∧
    (∀ sig type_hints, inspect_signature rt original_fn = Ok sig →
          get_type_hints rt original_fn = Ok type_hints →
          signature_outcome rt rd type_hints sig info) ∧
    (∀ sig e, inspect_signature rt original_fn = Ok sig →
          get_type_hints rt original_fn = Raise e →
          if existsb (exn_isinstance (exc_class e)) hint_handlers
          then signature_outcome rt rd [] sig info
          else info = signature_failure e).
Proof.
  intros Hunwrap Hsig Hhints Hdefaults. unfold extract_function_signature.
  rewrite Hunwrap. cbn [mbind result_bind].
  destruct (inspect_signature rt original_fn) as [sig|e] eqn:Esig.
  - cbn [mbind result_bind].
    specialize (Hdefaults sig).
    destruct (get_type_hints rt original_fn) as [hints|e] eqn:Ehints.
    + cbn [try_except mbind result_bind].
      destruct (signature_outcome_handled rt rd hints sig)
        as (info & Hinfo & Houtcome); [by eauto|].
      exists info. split; [exact Hinfo|].
      split; [intros; discriminate|]. split; [|intros; discriminate].
      by intros sig' hints' [= <-] [= <-].
    + fold hint_handlers. unfold try_except at 2.
      destruct (existsb (exn_isinstance (exc_class e)) hint_handlers) eqn:Einner.
      * cbn [mret result_ret mbind result_bind].
        destruct (signature_outcome_handled rt rd [] sig)
          as (info & Hinfo & Houtcome); [by eauto|].
        exists info. split; [exact Hinfo|].
        split; [intros; discriminate|]. split; [intros; discriminate|].
        intros sig' e' [= <-] [= <-]. by rewrite Einner.
      * cbn [mbind result_bind try_except].
        assert (existsb (exn_isinstance (exc_class e))
                  [TypeError; ValueError; AttributeError] = true) as ->.
        { clear -Hhints Einner. unfold handled, hint_handlers in *.
          destruct (exc_class e); vm_compute in *; congruence. }
        eexists. split; [reflexivity|]. split; [intros; discriminate|].
        split; [intros; discriminate|].
        intros sig' e' [= <-] [= <-]. by rewrite Einner.
  - cbn [mbind result_bind try_except]. unfold handled in Hsig. rewrite Hsig.
    eexists. split; [reflexivity|]. split; [|split].
    + by intros e' [= <-].
    + intros; discriminate.
    + intros; discriminate.
Qed.

(** ** Docstrings *)

(** Continuing a parameter description never misses its entry. *)
Lemma docstring_line_returns (st : doc_state) (raw_line : string) :
  doc_state_ok st →
  ∃ st', docstring_line st raw_line = Ok st' ∧ doc_state_ok st'.
Proof.
  intros Hok. unfold docstring_line.
  destruct (startswith ":param " (strip raw_line)).
  { destruct (split_char ":" (Some 2) (strip raw_line)) as [|? [|part1 [|part2 ?]]];
      eexists; (split; [reflexivity|]); intros p Hp; cbn in *;
      try (by apply Hok).
    injection Hp as <-. rewrite dict_get_set_eq. by eexists. }
  destruct (startswith ":" (strip raw_line) && current_param_set st).
  { eexists. split; [reflexivity|]. by intros p Hp. }
  destruct (current_param_set st && negb (bool_decide (strip raw_line = "")))
    eqn:Hcontinue.
  { apply andb_true_iff in Hcontinue as [Hset _].
    unfold current_param_set in Hset. unfold append_param_doc.
    destruct (current_param st) as [p|] eqn:Hcurrent; [|done].
    destruct (Hok p Hcurrent) as [doc Hdoc]. rewrite Hdoc.
    eexists. split; [reflexivity|]. intros q Hq. cbn in *.
    injection Hq as <-. rewrite dict_get_set_eq. by eexists. }
  destruct (negb (in_params_section st) && _ && _).
  - eexists. split; [reflexivity|]. intros p Hp. by apply Hok.
  - by exists st.
Qed.

Lemma docstring_lines_return (lines : list string) :
  ∀ st, doc_state_ok st →
        ∃ st', docstring_lines st lines = Ok st'.
Proof.
  induction lines as [|line lines IH]; intros st Hok; [by exists st|].
  cbn. destruct (docstring_line_returns st line Hok) as (st' & -> & Hok').
  cbn. by apply IH.
Qed.

Lemma parse_docstring_returns (doc : string) : returns (parse_docstring doc).
Proof.
  unfold parse_docstring, returns.
  destruct (docstring_lines_return (tail (split_char "010" None doc))
              {| param_docs := []; current_param := None;
                 description_lines := []; in_params_section := false |})
    as [st ->]; [by intros p Hp|].
  cbn. by eexists.
Qed.

Lemma extract_docstring_info_returns (rt : runtime) (fn original_fn : pyvalue) :
  unwrap_decorated_function rt fn = Ok original_fn →
  returns (extract_docstring_info rt fn).
Proof.
  intros Hunwrap. unfold extract_docstring_info. rewrite Hunwrap. cbn.
  destruct (inspect_getdoc rt original_fn) as [[|c doc]|];
    [by eexists|apply parse_docstring_returns|by eexists].
Qed.

(** ** The registry walk *)

Lemma extract_version_degraded (rt : runtime) (rd : rendering)
    (entry : RegistryEntry) :
  recoverable rt entry → ∃ record, degraded rt rd entry record.
Proof.
  intros (original_fn & Hunwrap & Hsig & Hhints & Hfile & Hdefaults).
  destruct (extract_function_signature_handled rt rd _ _ Hunwrap Hsig Hhints
              Hdefaults)
    as (info & Hinfo & Hfailed & Hresolved & Hhinted).
  destruct (extract_docstring_info_returns rt _ _ Hunwrap) as [doc Hdoc].
  assert (∃ file_path,
    try_except
      (file_path ← inspect_getfile rt original_fn;
       mret (make_path_relative_to_package file_path
               (zetta_utils_package_path rt)))
      [TypeError; OSError] (fun _ => mret "unknown") = Ok file_path ∧
    (∀ e, inspect_getfile rt original_fn = Raise e → file_path = "unknown"))
    as (file_path & Hpath & Hunknown).
  { destruct (inspect_getfile rt original_fn) as [p|e]; cbn.
    - eexists. split; [reflexivity|]. intros; discriminate.
    - unfold handled in Hfile. cbn in Hfile. rewrite Hfile.
      by exists "unknown". }
  assert (∃ line,
    try_except
      (if bool_decide (is_Some (o_code (attrs rt original_fn)))
       then co_firstlineno (attrs rt original_fn) else mret 0%Z)
      [AttributeError] (fun _ => mret 0%Z) = Ok line ∧
    (o_code (attrs rt original_fn) = None ∨
     o_code (attrs rt original_fn) = Some None → line = 0%Z))
    as (line & Hline & Hzero).
  { unfold co_firstlineno.
    destruct (o_code (attrs rt original_fn)) as [[n|]|]; cbn.
    - exists n. split; [done|]. by intros [|].
    - by exists 0%Z.
    - by exists 0%Z. }
  eexists. exists original_fn. split; [done|].
  split; [|split; [|split; [|split; [|split]]]].
  - unfold extract_version. rewrite Hinfo, Hdoc, Hunwrap.
    cbn [mbind result_bind]. rewrite Hpath. cbn [mbind result_bind].
    rewrite Hline. reflexivity.
  - exact Hfailed.
  - exact Hresolved.
  - exact Hhinted.
  - exact Hunknown.
  - exact Hzero.
Qed.

Lemma extract_versions_degraded (rt : runtime) (rd : rendering)
    (entries : list RegistryEntry) :
  Forall (recoverable rt) entries →
  ∀ builder_versions with_partial with_parallel,
    ∃ records with_partial' with_parallel',
      extract_versions rt rd entries
        (builder_versions, with_partial, with_parallel) =
        Ok (builder_versions ++ records, with_partial', with_parallel') ∧
      Forall2 (degraded rt rd) entries records.
Proof.
  induction 1 as [|entry entries Hentry _ IH];
    intros builder_versions with_partial with_parallel.
  - exists [], with_partial, with_parallel. by rewrite app_nil_r.
  - destruct (extract_version_degraded rt rd entry Hentry) as [record Hrecord].
    pose proof Hrecord as (_ & _ & Hextract & _).
    destruct (IH (builder_versions ++ [record])
                (count_if (allow_partial entry) with_partial)
                (count_if (allow_parallel entry) with_parallel))
      as (records & a & b & Hrest & Hall).
    exists (record :: records), a, b. split; [|by constructor].
    cbn. rewrite Hextract. cbn. rewrite Hrest. by rewrite <-app_assoc.
Qed.

Lemma extract_builders_degraded (rt : runtime) (rd : rendering)
    (registry : list (string * list RegistryEntry)) :
  ∀ builders total with_partial with_parallel,
    NoDup (builders.*1 ++ registry.*1) →
    Forall (fun item => Forall (recoverable rt) item.2) registry →
    ∃ added total' with_partial' with_parallel',
      extract_builders rt rd registry
        (builders, total, with_partial, with_parallel) =
        Ok (builders ++ added, total', with_partial', with_parallel') ∧
      Forall2
        (fun item builder =>
           builder.1 = item.1 ∧
           Forall2 (degraded rt rd) item.2 (versions builder.2))
        registry added.
Proof.
  induction registry as [|[builder_name entries] registry IH];
    intros builders total with_partial with_parallel Hnodup Hall.
  - exists [], total, with_partial, with_parallel. by rewrite app_nil_r.
  - apply Forall_cons in Hall as [Hentries Hall]. cbn in Hentries.
    destruct (extract_versions_degraded rt rd entries Hentries
                [] with_partial with_parallel)
      as (records & a & b & Hversions & Hrecords).
    cbn in Hnodup. apply NoDup_app in Hnodup as (Hleft & Hfresh & Hright).
    assert (builder_name ∉ builders.*1) as Hnew.
    { intros Hin. apply (Hfresh _ Hin). by left. }
    destruct (IH (builders ++
                    [(builder_name,
                      {| bi_name := builder_name; versions := records;
                         latest_version := head records |})])
                (total + length entries) a b)
      as (added & total' & a' & b' & Hrest & Hadded).
    { rewrite fmap_app. cbn. rewrite <-app_assoc. cbn.
      apply NoDup_app. split; [done|]. split; [|done].
      intros x Hx. apply Hfresh. done. }
    { done. }
    eexists (_ :: added), total', a', b'. split.
    + cbn. rewrite Hversions. cbn [mbind result_bind app].
      rewrite (dict_set_fresh _ _ _ Hnew), Hrest. by rewrite <-app_assoc.
    + constructor; [|done]. by split.
Qed.

(** C7. When every failure of a registry entry is one that the handlers
    cover, the entry keeps its place with the safe defaults of what
    failed, and [extract_builder_metadata] returns a document with one
    record for every entry of every builder. *)
Theorem covered_failures_degrade (rt : runtime) (rd : rendering) :
  NoDup (REGISTRY rt).*1 →
  (∀ builder_name entries entry,
     In (builder_name, entries) (REGISTRY rt) → In entry entries →
     recoverable rt entry) →
  ∃ document,
    extract_builder_metadata rt rd = Ok document ∧
    Forall2
      (fun item builder =>
         builder.1 = item.1 ∧
         Forall2 (degraded rt rd) item.2 (versions builder.2))
      (REGISTRY rt) (builders document).
Proof.
  intros Hnodup Hall.
  destruct (extract_builders_degraded rt rd (REGISTRY rt) [] 0 0 0)
    as (added & total & a & b & Hbuilders & Hadded); [done| |].
  { apply Forall_forall. intros [builder_name entries] Hitem.
    apply Forall_forall. intros entry Hentry.
    apply (Hall builder_name entries entry); by apply list_elem_of_In. }
  unfold extract_builder_metadata. rewrite Hbuilders. cbn.
  eexists. split; [reflexivity|]. done.
Qed.

Lemma covered_failures_degrade_witness :
  ∃ document,
    extract_builder_metadata builtin_runtime first_run = Ok document ∧
    Forall2
      (fun item builder =>
         builder.1 = item.1 ∧
         Forall2 (degraded builtin_runtime first_run) item.2
           (versions builder.2))
      (REGISTRY builtin_runtime) (builders document).
Proof.
  apply (covered_failures_degrade builtin_runtime first_run).
  - simpl. apply NoDup_singleton.
  - simpl. intros builder_name entries entry [[= <- <-]|[]] [<-|[]].
    exists (VObject 0). split; [reflexivity|]. split; [reflexivity|].
    split; [reflexivity|]. split; [reflexivity|].
    intros sig param Hsig. discriminate Hsig.
Defined.

(** How the record of the built-in function comes out. *)
Lemma builtin_entry_record :
  ∃ document record,
    extract_builder_metadata builtin_runtime first_run = Ok document ∧
    (dict_get "len" (builders document) ≫= fun b => versions b !! 0) =
      Some record ∧
    parameters (vi_signature record) = [] ∧
    return_type (vi_signature record) = "Any" ∧
    error (vi_signature record) =
      Some "Failed to extract signature: no signature found for builtin" ∧
    file record = "unknown" ∧
    line_number record = 0%Z.
Proof. vm_compute. eexists. eexists. repeat split. Qed.

(** A [SyntaxError] of [typing.get_type_hints] is caught by neither
    handler of the signature extraction, and ends the whole walk. *)
Lemma uncaught_hint_error_aborts :
  (∀ original_fn,
     get_type_hints bad_hint_runtime original_fn =
       Raise (Exception SyntaxError "Forward reference must be an expression")) ∧
  extract_builder_metadata bad_hint_runtime first_run =
    Raise (Exception SyntaxError "Forward reference must be an expression").
Proof. split; [intros; reflexivity|reflexivity]. Qed.

(** ** The empty registry *)

Lemma extract_builders_empty (rt : runtime) (rd : rendering)
    (registry : list (string * list RegistryEntry)) :
  ∀ builders total with_partial with_parallel,
    NoDup (builders.*1 ++ registry.*1) →
    Forall (fun item => item.2 = []) registry →
    extract_builders rt rd registry
      (builders, total, with_partial, with_parallel) =
      Ok (builders ++ map (fun item => empty_builder item.1) registry,
          total, with_partial, with_parallel).
Proof.
  induction registry as [|[builder_name entries] registry IH];
    intros builders total with_partial with_parallel Hnodup Hall.
  - cbn. by rewrite app_nil_r.
  - apply Forall_cons in Hall as [Hentries Hall]. cbn in Hentries. subst entries.
    cbn in Hnodup. apply NoDup_app in Hnodup as (Hleft & Hfresh & Hright).
    assert (builder_name ∉ builders.*1) as Hnew.
    { intros Hin. apply (Hfresh _ Hin). by left. }
    cbn. rewrite (dict_set_fresh _ _ _ Hnew), Nat.add_0_r.
    rewrite IH; [by rewrite <-app_assoc| |done].
    rewrite fmap_app. cbn. rewrite <-app_assoc. cbn.
    apply NoDup_app. split; [done|]. split; [|done].
    intros x Hx. by apply Hfresh.
Qed.

Lemma flat_map_empty_builders (names : list (string * list RegistryEntry)) :
  flat_map (fun kv : string * builder_info =>
              map (convert_version kv.1) (versions kv.2))
    (map (fun item => empty_builder item.1) names) = [].
Proof. induction names as [|item names IH]; [done|]. cbn. exact IH. Qed.

Lemma append_inj_l (s a b : string) : s +:+ a = s +:+ b → a = b.
Proof.
  induction s as [|c s IH]; intros Heq; [exact Heq|].
  change (String c (s +:+ a) = String c (s +:+ b)) in Heq.
  apply IH. by injection Heq.
Qed.

Lemma output_files_differ (output_dir : string) :
  builder_metadata_json output_dir ≠ package_info_json output_dir.
Proof.
  unfold builder_metadata_json, package_info_json.
  intros Heq%append_inj_l. discriminate Heq.
Qed.

(** C8. A registry without entries: the extension format has an empty
    builders array, the totals of entries and of the two capabilities are
    zero, the total of builders counts the names of the registry (zero
    when there is none), and both files are written. *)
Theorem no_entries_document (rt : runtime) (rd : rendering)
    (output_dir : string) (files : gmap string pyvalue) :
  NoDup (REGISTRY rt).*1 →
  (∀ builder_name entries,
     In (builder_name, entries) (REGISTRY rt) → entries = []) →
  ∃ document files',
    extract_builder_metadata rt rd = Ok document ∧
    py_get "builders" (convert_to_extension_format rt document) =
      Some (VList []) ∧
    total_entries (stats document) = 0 ∧
    builders_with_partial (stats document) = 0 ∧
    builders_with_parallel (stats document) = 0 ∧
    total_builders (stats document) = length (REGISTRY rt) ∧
    (REGISTRY rt = [] → total_builders (stats document) = 0) ∧
    main rt rd output_dir files = Ok files' ∧
    files' !! builder_metadata_json output_dir =
      Some (VDict [("builders", VList []);
                   ("default_version", VStr (DEFAULT_VERSION rt))]) ∧
    files' !! package_info_json output_dir =
      Some (VDict [("zetta_utils_package_path",
                    VStr (path_str (zetta_utils_package_path rt)))]).
Proof.
  intros Hnodup Hall.
  assert (extract_builders rt rd (REGISTRY rt) ([], 0, 0, 0) =
          Ok (map (fun item => empty_builder item.1) (REGISTRY rt), 0, 0, 0))
    as Hbuilders.
  { apply (extract_builders_empty rt rd (REGISTRY rt) [] 0 0 0); [done|].
    apply Forall_forall. intros [builder_name entries] Hitem.
    apply (Hall builder_name). by apply list_elem_of_In. }
  assert (∀ document,
            builders document =
              map (fun item => empty_builder item.1) (REGISTRY rt) →
            convert_to_extension_format rt document =
              VDict [("builders", VList []);
                     ("default_version", VStr (DEFAULT_VERSION rt))])
    as Hconvert.
  { intros document Hdoc. unfold convert_to_extension_format, extension_builders.
    by rewrite Hdoc, flat_map_empty_builders. }
  eexists. eexists.
  split; [unfold extract_builder_metadata; rewrite Hbuilders; reflexivity|].
  split; [by rewrite Hconvert|].
  do 3 (split; [reflexivity|]).
  split; [cbn; by rewrite length_map|].
  split; [intros Hnone; cbn; by rewrite Hnone|].
  split.
  - unfold main, extract_builder_metadata. rewrite Hbuilders.
    cbn [mbind result_bind mret result_ret try_except].
    rewrite Hconvert by done. reflexivity.
  - split.
    + rewrite lookup_insert_ne by (symmetry; apply output_files_differ).
      by rewrite lookup_insert_eq.
    + by rewrite lookup_insert_eq.
Qed.

Lemma no_entries_document_witness :
  ∃ document files',
    extract_builder_metadata orphan_runtime first_run = Ok document ∧
    py_get "builders" (convert_to_extension_format orphan_runtime document) =
      Some (VList []) ∧
    total_entries (stats document) = 0 ∧
    builders_with_partial (stats document) = 0 ∧
    builders_with_parallel (stats document) = 0 ∧
    total_builders (stats document) = 1 ∧
    (REGISTRY orphan_runtime = [] → total_builders (stats document) = 0) ∧
    main orphan_runtime first_run "out" ∅ = Ok files' ∧
    files' !! builder_metadata_json "out" =
      Some (VDict [("builders", VList []); ("default_version", VStr "0.0.2")]) ∧
    files' !! package_info_json "out" =
      Some (VDict [("zetta_utils_package_path", VStr "/site/zetta_utils")]).
Proof.
  apply (no_entries_document orphan_runtime first_run "out" ∅).
  - simpl. apply NoDup_singleton.
  - simpl. intros builder_name entries [[= _ <-]|[]]. reflexivity.
Defined.

(** A name of the registry that has no entries still counts as a
    builder: the registry holds zero entries and [total_builders] is 1. *)
Lemma orphan_builder_is_counted :
  Forall (fun item => item.2 = []) (REGISTRY orphan_runtime) ∧
  ∃ document,
    extract_builder_metadata orphan_runtime first_run = Ok document ∧
    total_entries (stats document) = 0 ∧
    total_builders (stats document) = 1.
Proof.
  split; [by repeat constructor|]. by eexists.
Qed.

(** ** What reaches the encoder *)

Lemma json_dump_serializable (rd : rendering) :
  ∀ obj, json_serializable obj = true → json_dump rd obj = obj.
Proof.
  fix IH 1.
  intros [| | | | |items|items| | | |] Hjson; cbn in *; try done.
  - f_equal. induction items as [|item items IHitems]; [done|].
    cbn in *. apply andb_true_iff in Hjson as [Hitem Hitems].
    by rewrite IH, IHitems.
  - f_equal. induction items as [|[k item] items IHitems]; [done|].
    cbn in *. apply andb_true_iff in Hjson as [Hitem Hitems].
    by rewrite IH, IHitems.
Qed.

Lemma forallb_VStr (texts : list string) :
  forallb json_serializable (map VStr texts) = true.
Proof. induction texts as [|t texts IH]; [done|exact IH]. Qed.

(** Of the type information only the literals can stand in the way of
    [json.dumps]. *)
Lemma type_info_dict_serializable (info : type_info) :
  json_serializable (VDict (type_info_dict info)) =
    json_serializable (VList (literals info)).
Proof.
  unfold type_info_dict. cbn [json_serializable forallb andb].
  rewrite forallb_VStr, andb_true_r.
  destruct (ti_origin info), (inner_type info); cbn;
    by rewrite ?andb_true_r.
Qed.

Lemma stringify_items_serializable (rd : rendering)
    (d : list (string * pyvalue)) :
  forallb (fun kv : string * pyvalue => let '(_, x) := kv in json_serializable x)
    (stringify_items rd d) = true.
Proof.
  induction d as [|[k v] d IH]; [done|].
  destruct v; cbn [stringify_items map forallb json_serializable andb];
    exact IH.
Qed.

Lemma emitted_type_info_serializable (rd : rendering) (info : type_info) :
  json_serializable (emitted_type_info rd info) = true.
Proof.
  unfold emitted_type_info.
  destruct (json_serializable (VDict (type_info_dict info))) eqn:Hinfo;
    [done|].
  cbn [json_serializable]. apply stringify_items_serializable.
Qed.

Lemma emitted_default_serializable (rd : rendering) (declared : pyvalue)
    (is_sentinel : bool) :
  json_serializable (emitted_default rd declared is_sentinel) = true.
Proof.
  unfold emitted_default. destruct is_sentinel; [done|].
  by destruct (json_serializable declared) eqn:Hjson.
Qed.

(** The flattened record of a parameter as [json.dump] writes it: only
    [required] can need the [default=str] fallback. *)
Lemma json_dump_emitted_parameter (rd : rendering)
    (type_hints : list (string * pyvalue)) (param : parameter)
    (required : pyvalue) (is_sentinel : bool) :
  json_dump rd
    (convert_parameter
       (emitted_parameter rd type_hints param required is_sentinel)) =
  VDict
    [ ("name", VStr (p_name param));
      ("type",
       VStr (type_string
               (extract_type_info rd (actual_annotation type_hints param))));
      ("type_info",
       emitted_type_info rd
         (extract_type_info rd (actual_annotation type_hints param)));
      ("required", json_dump rd required);
      ("default", emitted_default rd (p_default param) is_sentinel);
      ("kind", VStr (p_kind param)) ].
Proof.
  unfold convert_parameter, emitted_parameter.
  cbn [json_dump map pi_name pi_type pi_type_info pi_required pi_default
       pi_kind].
  rewrite (json_dump_serializable rd (emitted_type_info rd _))
    by apply emitted_type_info_serializable.
  rewrite (json_dump_serializable rd (emitted_default rd _ _))
    by apply emitted_default_serializable.
  done.
Qed.

Lemma json_dump_convert_documentation (rd : rendering) (doc : docstring_info) :
  json_dump rd (convert_documentation doc) = convert_documentation doc.
Proof.
  apply json_dump_serializable. unfold convert_documentation.
  cbn [json_serializable forallb andb].
  induction (doc_parameters doc) as [|[k d] ds IH]; [done|exact IH].
Qed.

(** ** Two runs against one registry *)

Lemma result_rel_refl {A} (R : A → A → Prop) (x : result A) :
  (∀ a, R a a) → result_rel R x x.
Proof. intros Hrefl. destruct x; cbn; auto. Qed.

Lemma result_rel_bind {A B} (R : A → A → Prop) (S : B → B → Prop)
    (x y : result A) (f g : A → result B) :
  result_rel R x y →
  (∀ a b, R a b → result_rel S (f a) (g b)) →
  result_rel S (x ≫= f) (y ≫= g).
Proof.
  intros Hxy Hfg. destruct x as [a|e], y as [b|e']; cbn in *; try done.
  by apply Hfg.
Qed.

Lemma result_rel_try_except {A} (R : A → A → Prop) (x y : result A)
    (handlers : list exn_class) (f g : exception → result A) :
  result_rel R x y →
  (∀ e, result_rel R (f e) (g e)) →
  result_rel R (try_except x handlers f) (try_except y handlers g).
Proof.
  intros Hxy Hfg. destruct x as [a|e], y as [b|e']; cbn in *; try done.
  subst e'. destruct (existsb _ _); [apply Hfg|done].
Qed.

Lemma object_free_VStr (texts : list string) :
  forallb object_free (map VStr texts) = true.
Proof. induction texts as [|t texts IH]; [done|exact IH]. Qed.

Section TwoRuns.
Context (rt : runtime) (r1 r2 : rendering).
Hypothesis same_plain : ∀ v, object_free v = true → py_str r1 v = py_str r2 v.

(** What [json.dump] writes depends on the text of the leaves it hands
    to [str]. *)
Lemma json_dump_same :
  ∀ obj, (∀ v, In v (dump_leaves obj) → py_str r1 v = py_str r2 v) →
         json_dump r1 obj = json_dump r2 obj.
Proof.
  fix IH 1.
  intros [| | | | |items|items|l| |name|o args] Hleaves;
    cbn [json_dump]; try done;
    try (f_equal; apply Hleaves; by left).
  - f_equal. cbn [dump_leaves] in Hleaves.
    induction items as [|item items IHitems]; [done|].
    cbn [map flat_map] in *. f_equal.
    + apply IH. intros v Hv. apply Hleaves, in_or_app. by left.
    + apply IHitems. intros v Hv. apply Hleaves, in_or_app. by right.
  - f_equal. cbn [dump_leaves] in Hleaves.
    induction items as [|[k item] items IHitems]; [done|].
    cbn [map flat_map] in *. f_equal.
    + f_equal. apply IH. intros v Hv. apply Hleaves, in_or_app. by left.
    + apply IHitems. intros v Hv. apply Hleaves, in_or_app. by right.
Qed.

Lemma check_sequence_type_same (o : option origin) (args : list pyvalue) :
  (∀ arg, In arg args → py_str r1 arg = py_str r2 arg) →
  _check_sequence_type r1 o args = _check_sequence_type r2 o args.
Proof.
  intros Hargs. unfold _check_sequence_type. destruct o as [o|]; [|done].
  destruct args as [|a args]; [done|]. rewrite (Hargs a); [done|by left].
Qed.

Lemma extract_type_info_same (annotation : pyvalue) :
  py_str r1 annotation = py_str r2 annotation →
  (∀ arg, In arg (get_args annotation) → py_str r1 arg = py_str r2 arg) →
  extract_type_info r1 annotation = extract_type_info r2 annotation.
Proof.
  intros Hannotation Hargs. unfold extract_type_info.
  rewrite (check_sequence_type_same _ _ Hargs), Hannotation.
  rewrite (map_ext_in _ _ _ Hargs). done.
Qed.

Lemma emitted_type_info_same (info : type_info) :
  (json_serializable (VList (literals info)) = false →
   py_str r1 (VList (literals info)) = py_str r2 (VList (literals info))) →
  emitted_type_info r1 info = emitted_type_info r2 info.
Proof.
  intros Hliterals. unfold emitted_type_info.
  rewrite type_info_dict_serializable.
  destruct (json_serializable (VList (literals info))); [done|].
  unfold stringify_items, type_info_dict. cbn [map].
  rewrite (Hliterals eq_refl).
  rewrite (same_plain (VStr (type_string info))) by done.
  rewrite (same_plain (VList (map VStr (ti_args info))))
    by apply object_free_VStr.
  rewrite (same_plain (VBool (is_union info))) by done.
  rewrite (same_plain (VBool (is_optional info))) by done.
  rewrite (same_plain (VBool (is_sequence info))) by done.
  destruct (ti_origin info) as [o|], (inner_type info) as [t|];
    cbn [optional_str];
    by rewrite ?(same_plain (VStr _)) by done.
Qed.

(** The written record of a parameter does not depend on [repr], and
    depends on [str] through the texts of the parameter only. *)
Lemma emitted_parameter_same (type_hints : list (string * pyvalue))
    (param : parameter) (required : pyvalue) (is_sentinel : bool) :
  compare_default rt (p_default param) = Ok (required, is_sentinel) →
  (∀ v, In v (parameter_texts rt type_hints param) →
        py_str r1 v = py_str r2 v) →
  json_dump r1
    (convert_parameter
       (emitted_parameter r1 type_hints param required is_sentinel)) =
  json_dump r2
    (convert_parameter
       (emitted_parameter r2 type_hints param required is_sentinel)).
Proof.
  intros Hcompared Htexts. unfold parameter_texts in Htexts.
  rewrite Hcompared in Htexts. rewrite !json_dump_emitted_parameter.
  set (annotation := actual_annotation type_hints param) in *.
  assert (extract_type_info r1 annotation = extract_type_info r2 annotation)
    as Hinfo.
  { apply extract_type_info_same.
    - apply Htexts. by left.
    - intros arg Harg. apply Htexts. right. apply in_or_app. by left. }
  rewrite Hinfo.
  assert (emitted_type_info r1 (extract_type_info r2 annotation) =
          emitted_type_info r2 (extract_type_info r2 annotation)) as ->.
  { apply emitted_type_info_same. intros Hjson.
    apply Htexts. right. apply in_or_app. right. apply in_or_app. left.
    destruct annotation eqn:Hannotation;
      cbn [extract_type_info literals] in Hjson |- *;
      try discriminate Hjson;
      try (destruct (_check_sequence_type r2 _ _);
           cbn [literals] in Hjson; rewrite Hjson; by left). }
  assert (json_dump r1 required = json_dump r2 required) as ->.
  { apply json_dump_same. intros v Hv.
    apply Htexts. right. do 3 (apply in_or_app; right). exact Hv. }
  assert (emitted_default r1 (p_default param) is_sentinel =
          emitted_default r2 (p_default param) is_sentinel) as ->; [|done].
  unfold emitted_default in *. destruct is_sentinel; [done|].
  destruct (json_serializable (p_default param)); [done|].
  f_equal. apply Htexts. right. do 2 (apply in_or_app; right).
  apply in_or_app. left. by left.
Qed.


Lemma dict_set_same (k : string) (p q : param_info)
    (ps qs : list (string * param_info)) :
  json_dump r1 (convert_parameter p) = json_dump r2 (convert_parameter q) →
  same_parameters r1 r2 ps qs →
  same_parameters r1 r2 (dict_set k p ps) (dict_set k q qs).
Proof.
  intros Hpq. induction 1 as [|[k1 p1] [k2 p2] ps qs [Hk Hp] Hrest IH]; cbn in *.
  - by repeat constructor.
  - subst k2. case_bool_decide; constructor; by try split.
Qed.

Lemma extract_parameters_same (type_hints : list (string * pyvalue))
    (params : list parameter) :
  (∀ param v, In param params →
     In v (parameter_texts rt type_hints param) →
     py_str r1 v = py_str r2 v) →
  ∀ ps qs,
    same_parameters r1 r2 ps qs →
    result_rel (same_parameters r1 r2)
      (extract_parameters rt r1 type_hints params ps)
      (extract_parameters rt r2 type_hints params qs).
Proof.
  induction params as [|param params IH]; intros Htexts ps qs Hsame; [done|].
  cbn [extract_parameters]. rewrite !extract_parameter_emitted.
  destruct (compare_default rt (p_default param))
    as [[required is_sentinel]|e] eqn:Hcompared; [|done].
  cbn [mbind result_bind mret result_ret fst snd].
  apply IH; [intros p v Hp; apply Htexts; by right|].
  apply dict_set_same; [|done].
  apply emitted_parameter_same; [done|].
  intros v Hv. apply (Htexts param v); [by left|done].
Qed.

Lemma extract_function_signature_same (fn : pyvalue) :
  (∀ original_fn sig type_hints param v,
     unwrap_decorated_function rt fn = Ok original_fn →
     inspect_signature rt original_fn = Ok sig →
     effective_hints rt original_fn = Ok type_hints →
     In param (sig_parameters sig) →
     In v (parameter_texts rt type_hints param) →
     py_str r1 v = py_str r2 v) →
  result_rel (same_signature r1 r2)
    (extract_function_signature rt r1 fn) (extract_function_signature rt r2 fn).
Proof.
  intros Htexts. unfold extract_function_signature.
  apply result_rel_try_except; [|intros e; by constructor].
  destruct (unwrap_decorated_function rt fn) as [original_fn|e] eqn:Hunwrap;
    [|by cbn].
  cbn [mbind result_bind].
  destruct (inspect_signature rt original_fn) as [sig|e] eqn:Hsig; [|by cbn].
  cbn [mbind result_bind].
  destruct (try_except (get_type_hints rt original_fn)
              [TypeError; AttributeError; NameError] (fun _ => mret []))
    as [type_hints|e] eqn:Hhints; [|by cbn].
  cbn [mbind result_bind].
  apply (result_rel_bind (same_parameters r1 r2)).
  - apply extract_parameters_same; [|constructor].
    intros param v Hparam Hv.
    exact (Htexts original_fn sig type_hints param v eq_refl Hsig Hhints
             Hparam Hv).
  - intros ps qs Hsame. exact Hsame.
Qed.

Lemma extract_version_same (entry : RegistryEntry) :
  (∀ v, entry_texts rt entry v → py_str r1 v = py_str r2 v) →
  result_rel (same_version r1 r2)
    (extract_version rt r1 entry) (extract_version rt r2 entry).
Proof.
  intros Htexts. unfold extract_version.
  apply (result_rel_bind (same_signature r1 r2)).
  { apply extract_function_signature_same.
    intros original_fn sig type_hints param v ? ? ? ? ?.
    apply Htexts. by exists original_fn, sig, type_hints, param. }
  intros s1 s2 Hsame.
  apply (result_rel_bind eq); [by apply result_rel_refl|].
  intros doc ? <-.
  apply (result_rel_bind eq); [by apply result_rel_refl|].
  intros original_fn ? <-.
  apply (result_rel_bind eq); [by apply result_rel_refl|].
  intros file_path ? <-.
  apply (result_rel_bind eq); [by apply result_rel_refl|].
  intros line ? <-.
  assert (map (json_dump r1)
            (map (fun kv : string * param_info => convert_parameter kv.2)
               (parameters s1)) =
          map (json_dump r2)
            (map (fun kv : string * param_info => convert_parameter kv.2)
               (parameters s2))) as Hflat.
  { clear -Hsame. unfold same_signature in Hsame.
    induction Hsame as [|p q ps qs [_ Hpq] _ IH]; [done|].
    cbn [map]. by rewrite Hpq, IH. }
  intros builder_name. unfold convert_version.
  cbn [vi_signature vi_version_spec function_name module_name file
       line_number vi_allow_partial vi_allow_parallel documentation
       json_dump map].
  by rewrite Hflat, !json_dump_convert_documentation.
Qed.

Lemma extract_versions_same (entries : list RegistryEntry) :
  (∀ entry v, In entry entries → entry_texts rt entry v →
     py_str r1 v = py_str r2 v) →
  ∀ x y, same_versions r1 r2 x y →
         result_rel (same_versions r1 r2)
           (extract_versions rt r1 entries x) (extract_versions rt r2 entries y).
Proof.
  induction entries as [|entry entries IH];
    intros Htexts [[vs1 a1] b1] [[vs2 a2] b2] Hsame; [done|].
  destruct Hsame as (Hvs & Ha & Hb). cbn in Hvs, Ha, Hb. subst a2 b2. cbn.
  apply (result_rel_bind (same_version r1 r2)).
  { apply extract_version_same. intros v. apply Htexts. by left. }
  intros v1 v2 Hv. apply IH; [intros e v He; apply Htexts; by right|].
  split; [|done]. cbn. apply Forall2_app; [done|by constructor].
Qed.

Lemma dict_set_same_builders (k : string) (b c : builder_info)
    (bs cs : list (string * builder_info)) :
  Forall2 (same_version r1 r2) (versions b) (versions c) →
  same_builders r1 r2 bs cs →
  same_builders r1 r2 (dict_set k b bs) (dict_set k c cs).
Proof.
  intros Hbc. induction 1 as [|[k1 b1] [k2 b2] bs cs [Hk Hb] Hrest IH]; cbn in *.
  - by repeat constructor.
  - subst k2. case_bool_decide; constructor; by try split.
Qed.

Lemma extract_builders_same (registry : list (string * list RegistryEntry)) :
  (∀ builder_name entries entry v,
     In (builder_name, entries) registry → In entry entries →
     entry_texts rt entry v → py_str r1 v = py_str r2 v) →
  ∀ bs cs total with_partial with_parallel,
    same_builders r1 r2 bs cs →
    result_rel (fun x y => same_builders r1 r2 x.1.1.1 y.1.1.1)
      (extract_builders rt r1 registry (bs, total, with_partial, with_parallel))
      (extract_builders rt r2 registry (cs, total, with_partial, with_parallel)).
Proof.
  induction registry as [|[builder_name entries] registry IH];
    intros Htexts bs cs total with_partial with_parallel Hsame; [done|].
  cbn.
  apply (result_rel_bind (same_versions r1 r2)).
  { apply extract_versions_same; [|by repeat split].
    intros entry v Hentry. apply (Htexts builder_name entries); [by left|done]. }
  intros [[vs1 a1] b1] [[vs2 a2] b2] (Hvs & Ha & Hb).
  cbn in Hvs, Ha, Hb. subst a2 b2.
  apply IH; [|by apply dict_set_same_builders].
  intros name es entry v Hes. apply (Htexts name es). by right.
Qed.

Lemma extract_builder_metadata_same :
  (∀ v, stringified rt v → py_str r1 v = py_str r2 v) →
  result_rel (same_metadata r1 r2)
    (extract_builder_metadata rt r1) (extract_builder_metadata rt r2).
Proof.
  intros Htexts. unfold extract_builder_metadata.
  apply (result_rel_bind (fun x y => same_builders r1 r2 x.1.1.1 y.1.1.1)).
  { apply extract_builders_same; [|constructor].
    intros builder_name entries entry v Hentries Hentry Hv.
    apply Htexts. by exists builder_name, entries, entry. }
  by intros [[[bs1 t1] a1] b1] [[[bs2 t2] a2] b2] Hsame.
Qed.

Lemma convert_to_extension_format_same (m1 m2 : metadata) :
  same_metadata r1 r2 m1 m2 →
  json_dump r1 (convert_to_extension_format rt m1) =
  json_dump r2 (convert_to_extension_format rt m2).
Proof.
  unfold same_metadata, convert_to_extension_format, extension_builders.
  intros Hsame. cbn [json_dump map].
  assert (map (json_dump r1)
            (flat_map (fun kv : string * builder_info =>
                         map (convert_version kv.1) (versions kv.2))
               (builders m1)) =
          map (json_dump r2)
            (flat_map (fun kv : string * builder_info =>
                         map (convert_version kv.1) (versions kv.2))
               (builders m2)))
    as ->; [|done].
  induction Hsame as [|[k1 b1] [k2 b2] bs cs [Hk Hb] _ IH]; [done|].
  cbn [flat_map fst snd] in *. subst k2. rewrite !map_app, IH. f_equal.
  clear -Hb.
  induction Hb as [|v1 v2 vs1 vs2 Hv _ IH]; [done|].
  cbn [map]. by rewrite (Hv k1), IH.
Qed.

End TwoRuns.

(** The sample runs differ in the address that objects print, and agree
    on every value that holds no object. *)
Lemma arg_repr_object_free (a1 a2 : string) :
  ∀ v, object_free v = true → arg_repr a1 v = arg_repr a2 v.
Proof.
  fix IH 1.
  intros [| | | | |items|items|l| |name|o args] Hfree;
    cbn [arg_repr]; try done.
  - assert (map (arg_repr a1) items = map (arg_repr a2) items) as ->; [|done].
    cbn [object_free] in Hfree.
    induction items as [|item items IHitems]; [done|].
    cbn [map forallb] in *. apply andb_true_iff in Hfree as [Hitem Hitems].
    by rewrite (IH item Hitem), IHitems.
  - assert (map (fun kv : string * pyvalue =>
                   let '(k, x) := kv in "'" +:+ k +:+ "': " +:+ arg_repr a1 x)
              items =
            map (fun kv : string * pyvalue =>
                   let '(k, x) := kv in "'" +:+ k +:+ "': " +:+ arg_repr a2 x)
              items) as ->; [|done].
    cbn [object_free] in Hfree.
    induction items as [|[k item] items IHitems]; [done|].
    cbn [map forallb] in *. apply andb_true_iff in Hfree as [Hitem Hitems].
    by rewrite (IH item Hitem), IHitems.
  - assert (map (arg_repr a1) args = map (arg_repr a2) args) as Hargs.
    { cbn [object_free] in Hfree.
      induction args as [|arg args IHargs]; [done|].
      cbn [map forallb] in *. apply andb_true_iff in Hfree as [Harg Hargs].
      by rewrite (IH arg Harg), IHargs. }
    destruct o; by rewrite Hargs.
Qed.

Lemma render_at_object_free (a1 a2 : string) (v : pyvalue) :
  object_free v = true →
  py_str (render_at a1) v = py_str (render_at a2) v.
Proof.
  intros Hfree. pose proof (arg_repr_object_free a1 a2 v Hfree) as Hrepr.
  by destruct v.
Qed.

(** Everything the plain registry hands to [str] holds no object. *)
Lemma plain_runtime_stringified (v : pyvalue) :
  stringified plain_runtime v → object_free v = true.
Proof.
  intros (builder_name & entries & entry & Hentries & Hentry & Htexts).
  destruct Hentries as [[= <- <-]|[]]. destruct Hentry as [<-|[]].
  destruct Htexts as (original_fn & sig & type_hints & param & Hunwrap &
                      Hsig & Hhints & Hparam & Hv).
  injection Hsig as <-. injection Hhints as <-.
  destruct Hparam as [<-|[<-|[]]]; vm_compute in Hv; intuition (by subst).
Qed.

(** C9. Two runs against one registry write the same files when [str]
    gives the same text in both for the values that hold no object and
    for the values of the registry whose text reaches the file; [repr]
    plays no part. *)
Theorem runs_agree_on_stringified_values (rt : runtime) (r1 r2 : rendering)
    (output_dir : string) (files : gmap string pyvalue) :
  (∀ v, object_free v = true → py_str r1 v = py_str r2 v) →
  (∀ v, stringified rt v → py_str r1 v = py_str r2 v) →
  main rt r1 output_dir files = main rt r2 output_dir files.
Proof.
  intros same_plain same_texts. unfold main.
  pose proof (extract_builder_metadata_same rt r1 r2 same_plain same_texts)
    as Hsame.
  destruct (extract_builder_metadata rt r1) as [m1|e1],
           (extract_builder_metadata rt r2) as [m2|e2];
    cbn in Hsame; try done.
  - cbn [mbind result_bind mret result_ret try_except].
    by rewrite (convert_to_extension_format_same rt r1 r2 m1 m2 Hsame).
  - by subst e2.
Qed.

Lemma runs_agree_on_stringified_values_witness :
  main plain_runtime first_run "out" ∅ = main plain_runtime second_run "out" ∅.
Proof.
  apply (runs_agree_on_stringified_values plain_runtime first_run second_run
           "out" ∅).
  - intros v Hfree. by apply render_at_object_free.
  - intros v Htexts. apply render_at_object_free.
    by apply plain_runtime_stringified.
Defined.

(** The default [object()] of [build] prints its address, and the two
    runs write different files for the same registry. *)
Lemma addresses_change_the_file :
  written_default marker_runtime first_run 0 1 =
    Some (VStr "<object object at 0x7f3a5c1d2e90>") ∧
  written_default marker_runtime second_run 0 1 =
    Some (VStr "<object object at 0x7f9b1c0a7b50>") ∧
  written marker_runtime first_run "out" ≠
    written marker_runtime second_run "out".
Proof.
  split; [reflexivity|]. split; [reflexivity|].
  intros Heq.
  assert (written_default marker_runtime first_run 0 1 =
          written_default marker_runtime second_run 0 1) as Hdefault.
  { unfold written_default. by rewrite Heq. }
  vm_compute in Hdefault. discriminate Hdefault.
Qed.

(** ** The empty cell, seen from the registry walk

    The signature extraction catches the [ValueError] of the unwrapper;
    the docstring extraction calls the unwrapper outside any handler, so
    one builder with an empty closure cell ends the walk, and [main],
    which handles other exceptions, lets it through. *)
Lemma empty_cell_aborts_walk :
  extract_function_signature empty_cell_runtime first_run (VObject 0) =
    Ok (signature_failure (Exception ValueError "Cell is empty")) ∧
  extract_docstring_info empty_cell_runtime (VObject 0) =
    Raise (Exception ValueError "Cell is empty") ∧
  main empty_cell_runtime first_run "out" ∅ =
    Raise (Exception ValueError "Cell is empty").
Proof. repeat split; reflexivity. Qed.

(** * Further properties *)

(** ** The unwrapper: bound, fixed point, closure scan *)

Lemma unwrap_loop_path (rt : runtime) (k : nat) :
  ∀ fn g,
    unwrap_loop rt k fn = Ok g →
    ∃ n, n ≤ k ∧ unwrap_path rt n fn g ∧ (n < k → matches_no_rule rt g).
Proof.
  induction k as [|k IH]; intros fn g Hloop.
  - injection Hloop as <-. exists 0. split; [lia|]. split; [constructor|lia].
  - cbn in Hloop.
    destruct (unwrap_iteration rt fn) as [[next|]|e] eqn:Hstep; cbn in Hloop.
    + destruct (IH next g Hloop) as (n & Hle & Hpath & Hstop).
      exists (S n). split; [lia|]. split; [by econstructor|].
      intros Hlt. apply Hstop. lia.
    + injection Hloop as <-. exists 0. split; [lia|].
      split; [constructor|done].
    + discriminate.
Qed.

(** X1. Whatever the unwrapper returns was reached by at most ten
    unwrapping steps, and when fewer than ten were taken no rule applies
    to the result any more. *)
Theorem unwrap_result_within_ten_steps (rt : runtime) (fn g : pyvalue) :
  unwrap_decorated_function rt fn = Ok g →
  ∃ n, n ≤ 10 ∧ unwrap_path rt n fn g ∧ (n < 10 → matches_no_rule rt g).
Proof. apply unwrap_loop_path. Qed.

Lemma unwrap_result_within_ten_steps_witness :
  ∃ n, n ≤ 10 ∧
       unwrap_path (chain_runtime 3) n (VObject 0) (VObject 3) ∧
       (n < 10 → matches_no_rule (chain_runtime 3) (VObject 3)).
Proof.
  apply (unwrap_result_within_ten_steps (chain_runtime 3) (VObject 0)
           (VObject 3)).
  reflexivity.
Defined.

(** X2. When every closure can be read (no empty cell, every content
    has a truth value, the owner has a name) the unwrapper returns for
    every input: it raises nothing. *)
Theorem unwrap_returns_when_closures_readable (rt : runtime) (fn : pyvalue) :
  (∀ v, closure_readable rt (attrs rt v)) →
  returns (unwrap_decorated_function rt fn).
Proof. intros Hreadable. by apply unwrap_returns_on_readable_closures. Qed.

Lemma closure_runtime_readable (v : pyvalue) :
  closure_readable closure_runtime (attrs closure_runtime v).
Proof.
  intros cells Hcells.
  destruct v as [| | | | | | |[|l]| | |]; try discriminate Hcells.
  injection Hcells as <-. split; [by eexists|].
  repeat constructor; eexists; (split; [reflexivity|by eexists]).
Qed.

Lemma unwrap_returns_when_closures_readable_witness :
  returns (unwrap_decorated_function closure_runtime (VObject 0)).
Proof.
  apply (unwrap_returns_when_closures_readable closure_runtime (VObject 0)).
  exact closure_runtime_readable.
Defined.

(** X3. What the closure scan picks is the content of one of the cells,
    is truthy and callable, and has a name that is not the wrapper's own
    name, is not ["wrapped"] and does not start with an underscore. *)
Theorem closure_scan_picks_named_callable (rt : runtime) (o : pyobj)
    (cells : list cell) (picked : pyvalue) :
  scan_closure rt o cells = Ok (Some picked) →
  In (Some picked) cells ∧
  py_truth rt picked = Ok true ∧
  py_callable rt picked = true ∧
  ∃ cell_name own_name,
    o_name (attrs rt picked) = Some cell_name ∧
    o_name o = Some own_name ∧
    cell_name ≠ own_name ∧
    cell_name ≠ "wrapped" ∧
    startswith "_" cell_name = false.
Proof.
  induction cells as [|c cells IH]; intros Hscan; [discriminate|].
  assert (scan_closure rt o cells = Ok (Some picked) →
          In (Some picked) (c :: cells) ∧
          py_truth rt picked = Ok true ∧
          py_callable rt picked = true ∧
          ∃ cell_name own_name,
            o_name (attrs rt picked) = Some cell_name ∧
            o_name o = Some own_name ∧
            cell_name ≠ own_name ∧
            cell_name ≠ "wrapped" ∧
            startswith "_" cell_name = false) as Hrest.
  { intros Hlater. destruct (IH Hlater) as (Hin & Hothers).
    split; [by right|done]. }
  cbn [scan_closure] in Hscan. destruct c as [v|]; [|discriminate].
  cbn [cell_contents mbind result_bind] in Hscan.
  destruct (py_truth rt v) as [[|]|] eqn:Htruth;
    cbn [mbind result_bind andb] in Hscan; [|by apply Hrest|discriminate].
  destruct (py_callable rt v) eqn:Hcallable; [|by apply Hrest].
  destruct (o_name (attrs rt v)) as [cell_name|] eqn:Hcell; [|by apply Hrest].
  unfold get_name in Hscan.
  destruct (o_name o) as [own_name|] eqn:Hown; [|discriminate].
  cbn [mbind result_bind] in Hscan.
  destruct (bool_decide (cell_name = own_name)) eqn:Hsame;
    [by apply Hrest|].
  destruct (bool_decide (cell_name = "wrapped")) eqn:Hgeneric;
    [by apply Hrest|].
  destruct (startswith "_" cell_name) eqn:Hprivate; [by apply Hrest|].
  cbn [negb andb] in Hscan. injection Hscan as <-.
  split; [by left|]. split; [done|]. split; [done|].
  exists cell_name, own_name.
  apply bool_decide_eq_false in Hsame, Hgeneric. done.
Qed.

Lemma closure_scan_picks_named_callable_witness :
  In (Some (VObject 1)) [Some (VInt 3); Some (VObject 1)] ∧
  py_truth closure_runtime (VObject 1) = Ok true ∧
  py_callable closure_runtime (VObject 1) = true ∧
  ∃ cell_name own_name,
    o_name (attrs closure_runtime (VObject 1)) = Some cell_name ∧
    o_name (closure_heap 0) = Some own_name ∧
    cell_name ≠ own_name ∧
    cell_name ≠ "wrapped" ∧
    startswith "_" cell_name = false.
Proof.
  apply (closure_scan_picks_named_callable closure_runtime (closure_heap 0)
           [Some (VInt 3); Some (VObject 1)] (VObject 1)).
  reflexivity.
Defined.

(** ** The classifier: optional, literals, sequences *)

(** X5. Literal values are looked for under [Literal] and [Union] only:
    an annotation with any other origin, such as [list[Literal["a"]]],
    has no literals. *)
Theorem no_literals_outside_Literal_and_Union (rd : rendering)
    (annotation : pyvalue) :
  get_origin annotation ≠ Some typing_Literal →
  get_origin annotation ≠ Some typing_Union →
  literals (extract_type_info rd annotation) = [].
Proof.
  intros Hliteral Hunion. rewrite extract_type_info_literals.
  unfold _extract_literals_from_annotation.
  by rewrite !bool_decide_eq_false_2.
Qed.

Lemma no_literals_outside_Literal_and_Union_witness :
  literals (extract_type_info first_run
              (VAlias (other_origin (Some "list") "<class 'list'>")
                 [VAlias typing_Literal [VStr "a"]])) = [].
Proof.
  apply (no_literals_outside_Literal_and_Union first_run
           (VAlias (other_origin (Some "list") "<class 'list'>")
              [VAlias typing_Literal [VStr "a"]]));
    discriminate.
Defined.

Lemma literals_of_member_Literal (arg : pyvalue) :
  get_origin arg = Some typing_Literal → literals_of_member arg = get_args arg.
Proof.
  intros Horigin. unfold literals_of_member, is_Literal.
  by rewrite bool_decide_eq_true_2.
Qed.

Lemma literals_of_member_plain (arg : pyvalue) :
  get_origin arg = None → literals_of_member arg = [].
Proof. by destruct arg. Qed.

(** X6. In a union whose members are [Literal] constructs or plain
    classes ([Optional[Literal["a", "b"]]]), the literals are the values of
    the [Literal] members, member after member. *)
Theorem union_literals_are_collected (rd : rendering) (annotation : pyvalue) :
  get_origin annotation = Some typing_Union →
  Forall (fun member => get_origin member = Some typing_Literal ∨
                        get_origin member = None) (get_args annotation) →
  literals (extract_type_info rd annotation) =
    flat_map get_args (List.filter is_Literal (get_args annotation)).
Proof.
  intros Horigin Hmembers. rewrite extract_type_info_literals.
  unfold _extract_literals_from_annotation. rewrite Horigin.
  rewrite bool_decide_eq_false_2 by discriminate.
  rewrite bool_decide_eq_true_2 by done. cbn [negb orb].
  induction Hmembers as [|member members Hmember _ IH]; [done|].
  cbn [is_nil flat_map List.filter].
  assert (flat_map literals_of_member members =
          flat_map get_args (List.filter is_Literal members)) as Hrest.
  { destruct members; [done|exact IH]. }
  rewrite Hrest. destruct Hmember as [Hlit|Hplain].
  - rewrite (literals_of_member_Literal _ Hlit).
    assert (is_Literal member = true) as ->; [|done].
    unfold is_Literal. by rewrite bool_decide_eq_true_2.
  - rewrite (literals_of_member_plain _ Hplain).
    assert (is_Literal member = false) as ->; [|done].
    unfold is_Literal. rewrite Hplain. by rewrite bool_decide_eq_false_2.
Qed.

Lemma union_literals_are_collected_witness :
  literals (extract_type_info first_run
              (VAlias typing_Union
                 [VAlias typing_Literal [VStr "nearest"; VStr "linear"];
                  NoneType])) =
    [VStr "nearest"; VStr "linear"].
Proof.
  apply (union_literals_are_collected first_run
           (VAlias typing_Union
              [VAlias typing_Literal [VStr "nearest"; VStr "linear"];
               NoneType])).
  - reflexivity.
  - constructor; [left; reflexivity|].
    constructor; [right; reflexivity|]. constructor.
Defined.

Lemma flat_map_nil {A B} (f : A → list B) (l : list A) :
  Forall (fun x => f x = []) l → flat_map f l = [].
Proof. induction 1 as [|x l Hx _ IH]; [done|]. cbn. by rewrite Hx, IH. Qed.

(** X7. The search for literals goes two levels deep and no further: a
    union member that is not a [Literal] and none of whose own arguments
    is a [Literal] adds nothing, whatever lies deeper inside it. *)
Theorem deeper_literals_are_not_found (rd : rendering) (annotation : pyvalue) :
  get_origin annotation = Some typing_Union →
  Forall (fun member =>
            is_Literal member = false ∧
            Forall (fun inner => is_Literal inner = false) (get_args member))
    (get_args annotation) →
  literals (extract_type_info rd annotation) = [].
Proof.
  intros Horigin Hmembers. rewrite extract_type_info_literals.
  unfold _extract_literals_from_annotation. rewrite Horigin.
  rewrite bool_decide_eq_false_2 by discriminate.
  rewrite bool_decide_eq_true_2 by done. cbn [negb orb].
  destruct (is_nil (get_args annotation)); [done|].
  apply flat_map_nil. eapply Forall_impl; [exact Hmembers|].
  intros member [Hmember Hinner]. unfold literals_of_member.
  rewrite Hmember. destruct (negb (has_origin_and_args member)); [done|].
  destruct (negb _); [done|].
  apply flat_map_nil. eapply Forall_impl; [exact Hinner|].
  by intros inner ->.
Qed.

Lemma deeper_literals_are_not_found_witness :
  literals (extract_type_info first_run
              (VAlias typing_Union
                 [VAlias (other_origin (Some "dict") "<class 'dict'>")
                    [VClass "str";
                     VAlias (other_origin (Some "list") "<class 'list'>")
                       [VAlias typing_Literal [VStr "a"]]];
                  NoneType])) = [].
Proof.
  apply (deeper_literals_are_not_found first_run
           (VAlias typing_Union
              [VAlias (other_origin (Some "dict") "<class 'dict'>")
                 [VClass "str";
                  VAlias (other_origin (Some "list") "<class 'list'>")
                    [VAlias typing_Literal [VStr "a"]]];
               NoneType])).
  - reflexivity.
  - repeat constructor.
Defined.

(** X8. The inner type goes with the sequence flag: it is absent when
    the annotation is not a sequence, and for a sequence it is the string
    form of the first argument, when there is one. *)
Theorem inner_type_follows_is_sequence (rd : rendering) (annotation : pyvalue) :
  inner_type (extract_type_info rd annotation) =
    if is_sequence (extract_type_info rd annotation)
    then head (ti_args (extract_type_info rd annotation))
    else None.
Proof.
  destruct annotation as [| | | | | | | | | |o args]; try reflexivity.
  unfold extract_type_info, get_origin, get_args, _check_sequence_type.
  destruct (origin_name o) as [name|];
    [destruct (existsb _ sequence_names)|];
    destruct (bool_decide (o = abc_Sequence) || _);
    by destruct args.
Qed.

(** ** Parameters and signatures *)

(** X9. In every parameter record the type information and the default
    can be serialized as they are: of the six fields that go to the
    extension format only [required], which holds whatever the
    comparison of the default with the sentinel returned, can need the
    [default=str] fallback of [json.dump]. *)
Theorem parameter_record_is_serializable (rt : runtime) (rd : rendering)
    (type_hints : list (string * pyvalue)) (param : parameter)
    (info : param_info) :
  extract_parameter rt rd type_hints param = Ok info →
  json_serializable (pi_type_info info) = true ∧
  json_serializable (pi_default info) = true ∧
  json_serializable (convert_parameter info) =
    json_serializable (pi_required info).
Proof.
  intros Hinfo.
  apply extract_parameter_Ok in Hinfo
    as (required & is_sentinel & _ & ->).
  unfold convert_parameter. cbn [json_serializable forallb].
  cbn [pi_type_info pi_default pi_required emitted_parameter].
  rewrite emitted_type_info_serializable, emitted_default_serializable.
  split; [done|]. split; [done|]. cbn [andb]. by rewrite andb_true_r.
Qed.

Lemma parameter_record_is_serializable_witness :
  ∃ info,
    extract_parameter marker_runtime first_run [] marker_parameter = Ok info ∧
    json_serializable (pi_type_info info) = true ∧
    json_serializable (pi_default info) = true ∧
    json_serializable (convert_parameter info) =
      json_serializable (pi_required info).
Proof.
  destruct (extract_parameter marker_runtime first_run [] marker_parameter)
    as [info|e] eqn:Hinfo; [|discriminate Hinfo].
  exists info. split; [reflexivity|].
  apply (parameter_record_is_serializable marker_runtime first_run []
           marker_parameter info).
  exact Hinfo.
Defined.



(** The names under which the loop files the records. *)
Lemma extract_parameters_fresh (rt : runtime) (rd : rendering)
    (type_hints : list (string * pyvalue)) (params : list parameter) :
  ∀ parameters result,
    NoDup (parameters.*1 ++ map p_name params) →
    extract_parameters rt rd type_hints params parameters = Ok result →
    ∃ added,
      result = parameters ++ added ∧
      Forall2 (fun (param : parameter) (kv : string * param_info) =>
                 kv.1 = p_name param ∧ pi_name kv.2 = p_name param)
        params added.
Proof.
  induction params as [|param params IH];
    intros parameters result Hnodup Hresult.
  - injection Hresult as <-. exists []. by rewrite app_nil_r.
  - cbn [extract_parameters map] in *.
    destruct (extract_parameter rt rd type_hints param) as [info|e] eqn:Hinfo;
      [|discriminate Hresult].
    cbn [mbind result_bind] in Hresult.
    apply NoDup_app in Hnodup as (Hleft & Hfresh & Hright).
    assert (p_name param ∉ parameters.*1) as Hnew.
    { intros Hin. apply (Hfresh _ Hin). by left. }
    rewrite (dict_set_fresh _ _ _ Hnew) in Hresult.
    apply IH in Hresult as (added & -> & Hadded).
    + exists ((p_name param, info) :: added).
      split; [by rewrite <-app_assoc|]. constructor; [|done].
      split; [done|].
      apply extract_parameter_Ok in Hinfo as (? & ? & _ & ->). done.
    + rewrite fmap_app. cbn. rewrite <-app_assoc. cbn.
      apply NoDup_app. split; [done|]. split; [|done].
      intros x Hx. by apply Hfresh.
Qed.

Lemma extract_parameters_return (rt : runtime) (rd : rendering)
    (type_hints : list (string * pyvalue)) (params : list parameter) :
  (∀ param, In param params →
     returns (compare_default rt (p_default param))) →
  ∀ parameters,
    returns (extract_parameters rt rd type_hints params parameters).
Proof.
  induction params as [|param params IH]; intros Hall parameters;
    [by eexists|].
  cbn [extract_parameters]. rewrite extract_parameter_emitted.
  destruct (Hall param (or_introl eq_refl)) as [compared ->].
  cbn [mbind result_bind mret result_ret]. apply IH.
  intros p Hp. apply Hall. by right.
Qed.

(** X11. For parameters with distinct names the dictionary of a
    signature holds one record per parameter, under the parameter's name
    and in the order of declaration; the loop returns it whenever the
    comparison of every default with the sentinel returns. *)
Theorem parameters_keep_declaration_order (rt : runtime) (rd : rendering)
    (type_hints : list (string * pyvalue)) (params : list parameter) :
  NoDup (map p_name params) →
  (∀ parameters,
     extract_parameters rt rd type_hints params [] = Ok parameters →
     parameters.*1 = map p_name params ∧
     map (fun kv : string * param_info => pi_name kv.2) parameters =
       map p_name params ∧
     length parameters = length params) ∧
  ((∀ param, In param params →
      returns (compare_default rt (p_default param))) →
   returns (extract_parameters rt rd type_hints params [])).
Proof.
  intros Hnodup. split; [|intros Hall; by apply extract_parameters_return].
  intros parameters Hparameters.
  apply extract_parameters_fresh in Hparameters as (added & -> & Hadded);
    [|done].
  cbn [app]. clear Hnodup.
  induction Hadded as [|param [k info] params added [Hk Hname] _ IH];
    [done|].
  cbn in Hk, Hname. destruct IH as (IH1 & IH2 & IH3). cbn.
  by rewrite Hk, Hname, IH1, IH2, IH3.
Qed.

Lemma parameters_keep_declaration_order_witness :
  ∃ parameters,
    extract_parameters marker_runtime first_run []
      [path_parameter; marker_parameter] [] = Ok parameters ∧
    parameters.*1 = ["path"; "marker"] ∧
    map (fun kv : string * param_info => pi_name kv.2) parameters =
      ["path"; "marker"] ∧
    length parameters = 2.
Proof.
  assert (NoDup (map p_name [path_parameter; marker_parameter])) as Hnodup.
  { simpl. apply NoDup_cons. split; [|apply NoDup_singleton].
    intros Hin. apply list_elem_of_singleton in Hin. discriminate Hin. }
  destruct (parameters_keep_declaration_order marker_runtime first_run []
              [path_parameter; marker_parameter] Hnodup) as [Hshape Hreturns].
  destruct Hreturns as [parameters Hparameters].
  { intros param [<-|[<-|[]]]; by eexists. }
  exists parameters. split; [exact Hparameters|].
  apply Hshape. exact Hparameters.
Defined.

(** ** Docstrings *)

(** X12. Once the callable unwraps, the docstring extraction returns:
    the [KeyError] that continuing a parameter description could raise
    never occurs, because a parameter is continued only after its entry
    was made. *)
Theorem docstring_extraction_returns (rt : runtime) (fn original_fn : pyvalue) :
  unwrap_decorated_function rt fn = Ok original_fn →
  ∃ info, extract_docstring_info rt fn = Ok info.
Proof. apply extract_docstring_info_returns. Qed.

Lemma docstring_extraction_returns_witness :
  ∃ info, extract_docstring_info closure_runtime (VObject 0) = Ok info.
Proof.
  apply (docstring_extraction_returns closure_runtime (VObject 0) (VObject 1)).
  reflexivity.
Defined.

Lemma split_char_first_line (sep : ascii) (first rest : string) :
  contains (String sep "") first = false →
  split_char sep None (first +:+ String sep rest) =
    first :: split_char sep None rest.
Proof.
  induction first as [|c first IH]; intros Hfree.
  - change ("" +:+ String sep rest) with (String sep rest).
    cbn. by rewrite bool_decide_eq_true_2.
  - change (String c first +:+ String sep rest)
      with (String c (first +:+ String sep rest)).
    cbn in Hfree. apply orb_false_iff in Hfree as [Hhead Htail].
    rewrite andb_true_r in Hhead. apply bool_decide_eq_false in Hhead.
    cbn [split_char]. rewrite bool_decide_eq_false_2 by congruence.
    cbn [andb]. by rewrite IH.
Qed.

(** X13. The summary of a docstring is its first line, whatever follows
    the first line break. *)
Theorem docstring_summary_is_first_line (first rest : string) :
  contains (String "010" "") first = false →
  ∃ info,
    parse_docstring (first +:+ String "010" rest) = Ok info ∧
    summary info = first.
Proof.
  intros Hfree. unfold parse_docstring.
  rewrite (split_char_first_line _ _ _ Hfree). cbn [tail hd].
  destruct (docstring_lines_return (split_char "010" None rest)
              {| param_docs := []; current_param := None;
                 description_lines := []; in_params_section := false |})
    as [st ->]; [by intros p Hp|].
  by eexists.
Qed.

Lemma docstring_summary_is_first_line_witness :
  ∃ info,
    parse_docstring
      ("Build a thing." +:+ String "010" ":param path: where it lives") =
      Ok info ∧
    summary info = "Build a thing.".
Proof.
  apply (docstring_summary_is_first_line "Build a thing."
           ":param path: where it lives").
  reflexivity.
Defined.

(** ** Paths *)

Lemma path_within_prefix (package rest : list string) :
  path_within package (package ++ rest) = true.
Proof.
  induction package as [|a package IH]; [done|].
  cbn. by rewrite bool_decide_eq_true_2.
Qed.

Lemma path_within_true (package path : list string) :
  path_within package path = true → ∃ rest, path = package ++ rest.
Proof.
  revert path. induction package as [|a package IH]; intros path Hwithin.
  - by exists path.
  - destruct path as [|b path]; [discriminate|]. cbn in Hwithin.
    apply andb_true_iff in Hwithin as [Hhead Htail].
    apply bool_decide_eq_true in Hhead as ->.
    destruct (IH _ Htail) as [rest ->]. by exists rest.
Qed.

(** X14. A file inside the package is reported relative to the
    directory that holds the package, so the path starts with the name of
    the package directory; a file anywhere else is reported with its whole
    absolute path after [<external>/]. *)
Theorem package_files_are_reported_relative (parent : list string)
    (name : string) (rest path : list string) :
  make_path_relative_to_package ((parent ++ [name]) ++ rest) (parent ++ [name]) =
    "<zetta_utils>/" +:+ join "/" (name :: rest) ∧
  ((∀ tail, path ≠ (parent ++ [name]) ++ tail) →
   make_path_relative_to_package path (parent ++ [name]) =
     "<external>/" +:+ "/" +:+ join "/" path).
Proof.
  split.
  - unfold make_path_relative_to_package.
    rewrite path_within_prefix, length_app. cbn [length].
    replace (length parent + 1 - 1) with (length parent) by lia.
    rewrite <-app_assoc, drop_app_length. done.
  - intros Houtside. unfold make_path_relative_to_package.
    destruct (path_within (parent ++ [name]) path) eqn:Hwithin; [|done].
    destruct (path_within_true _ _ Hwithin) as [tail ->].
    by destruct (Houtside tail).
Qed.

Lemma package_files_are_reported_relative_witness :
  make_path_relative_to_package ["site"; "zetta_utils"; "sample.py"]
    ["site"; "zetta_utils"] = "<zetta_utils>/zetta_utils/sample.py" ∧
  make_path_relative_to_package ["usr"; "lib"; "functools.py"]
    ["site"; "zetta_utils"] = "<external>//usr/lib/functools.py".
Proof.
  split.
  - apply (proj1 (package_files_are_reported_relative ["site"] "zetta_utils"
                    ["sample.py"] [])).
  - apply (proj2 (package_files_are_reported_relative ["site"] "zetta_utils"
                    [] ["usr"; "lib"; "functools.py"])).
    intros tail. discriminate.
Defined.

(** ** Version suffixes *)

(** X15. An upper bound and an exact version give the same suffix: the
    entries ["<=1.2"] and ["==1.2"] of one builder are exported under one
    name. *)
Theorem upper_bound_and_exact_suffix_coincide (version : string) :
  version_spec_to_suffix ("<=" +:+ version) =
  version_spec_to_suffix ("==" +:+ version).
Proof.
  change ("<=" +:+ version) with (String "<" (String "=" version)).
  change ("==" +:+ version) with (String "=" (String "=" version)).
  unfold version_spec_to_suffix.
  rewrite !bool_decide_eq_false_2 by discriminate. reflexivity.
Qed.

Lemma suffix_branches (spec : string) :
  version_spec_to_suffix spec = "" ∧ startswith ">=" spec = true ∨
  startswith ">=" spec = false ∧ ∃ text, version_spec_to_suffix spec = "_v" +:+ text ∧
    (text = replace "." "_" (drop_chars 2 spec) ∨
     text = replace "=" "eq"
              (replace "<" "lt" (replace ">" "gt" (replace "." "_" spec)))).
Proof.
  unfold version_spec_to_suffix.
  destruct (startswith ">=" spec) eqn:Hlower.
  - left. by rewrite orb_true_r.
  - right. split; [done|].
    assert (bool_decide (spec = ">=0.0.0") = false) as ->.
    { apply bool_decide_eq_false. intros ->. discriminate Hlower. }
    cbn [orb].
    destruct (startswith "==" spec); [by eexists; split; [|left]|].
    destruct (startswith "<=" spec); [by eexists; split; [|left]|].
    eexists. split; [done|by right].
Qed.

(** X16. Only a specifier that starts with [">="] gives the bare builder
    name: the suffix is empty exactly for those, and starts with ["_v"] for
    every other specifier. *)
Theorem suffix_empty_iff_lower_bound (spec : string) :
  (version_spec_to_suffix spec = "" ↔ startswith ">=" spec = true) ∧
  (startswith ">=" spec = false →
   startswith "_v" (version_spec_to_suffix spec) = true).
Proof.
  destruct (suffix_branches spec) as [[Hempty Hlower]|(Hother & text & Htext & _)].
  - split; [by split|]. intros Hno. congruence.
  - rewrite Htext.
    change ("_v" +:+ text) with (String "_" (String "v" text)).
    split; [split; [discriminate|congruence]|]. intros _. cbn.
    by rewrite !bool_decide_eq_true_2.
Qed.

Lemma suffix_empty_iff_lower_bound_witness :
  startswith "_v" (version_spec_to_suffix "~=1.2.3") = true.
Proof.
  apply (proj2 (suffix_empty_iff_lower_bound "~=1.2.3")). reflexivity.
Defined.

Lemma contains_dot_cons (c : ascii) (s : string) :
  contains "." (String c s) = bool_decide ("."%char = c) || contains "." s.
Proof. cbn. by rewrite andb_true_r. Qed.

Lemma contains_dot_append (a b : string) :
  contains "." (a +:+ b) = contains "." a || contains "." b.
Proof.
  induction a as [|c a IH].
  - change ("" +:+ b) with b. by destruct b.
  - change (String c a +:+ b) with (String c (a +:+ b)).
    rewrite !contains_dot_cons, IH. by rewrite orb_assoc.
Qed.

(** Replacing a character by a text without dots brings no dot in, and
    replacing the dot itself leaves none. *)
Lemma replace_char_no_dot (old : ascii) (new s : string) :
  contains "." new = false →
  old = "."%char ∨ contains "." s = false →
  contains "." (replace (String old "") new s) = false.
Proof.
  intros Hnew. unfold replace.
  induction s as [|c s IH]; intros Hs; [done|].
  cbn [replace_from startswith String.length Nat.sub].
  rewrite andb_true_r.
  assert (old = "."%char ∨ contains "." s = false) as Hrest.
  { destruct Hs as [Hold|Hs]; [by left|right].
    rewrite contains_dot_cons in Hs. by apply orb_false_iff in Hs as [_ ?]. }
  case_bool_decide as Hmatch.
  - rewrite contains_dot_append, Hnew. by apply IH.
  - rewrite contains_dot_cons, (IH Hrest), orb_false_r.
    apply bool_decide_eq_false. intros <-.
    destruct Hs as [Hold|Hs]; [congruence|].
    rewrite contains_dot_cons, bool_decide_eq_true_2 in Hs by done.
    discriminate Hs.
Qed.

(** X17. No suffix contains a dot, whatever the specifier: every branch
    that keeps text of the specifier replaces its dots by underscores. *)
Theorem suffix_has_no_dot (spec : string) :
  contains "." (version_spec_to_suffix spec) = false.
Proof.
  destruct (suffix_branches spec)
    as [[-> _]|(_ & text & -> & [-> | ->])]; [done| |];
    rewrite contains_dot_append; apply orb_false_iff; (split; [done|]).
  - apply replace_char_no_dot; [done|by left].
  - do 3 (apply replace_char_no_dot; [done|right]).
    apply replace_char_no_dot; [done|by left].
Qed.

(** ** The statistics of the walk *)

Lemma count_if_filter (f : RegistryEntry → bool) (entry : RegistryEntry)
    (entries : list RegistryEntry) (n : nat) :
  count_if (f entry) n + length (List.filter f entries) =
  n + length (List.filter f (entry :: entries)).
Proof. cbn. destruct (f entry); cbn; lia. Qed.

Lemma extract_versions_counts (rt : runtime) (rd : rendering)
    (entries : list RegistryEntry) :
  ∀ vs a b vs' a' b',
    extract_versions rt rd entries (vs, a, b) = Ok (vs', a', b') →
    length vs' = length vs + length entries ∧
    a' = a + length (List.filter allow_partial entries) ∧
    b' = b + length (List.filter allow_parallel entries).
Proof.
  induction entries as [|entry entries IH]; intros vs a b vs' a' b' Hwalk.
  - injection Hwalk as <- <- <-. cbn. lia.
  - cbn [extract_versions] in Hwalk.
    destruct (extract_version rt rd entry) as [version|e]; [|discriminate].
    cbn [mbind result_bind] in Hwalk.
    destruct (IH _ _ _ _ _ _ Hwalk) as (Hlen & -> & ->).
    rewrite length_app in Hlen. cbn [length] in Hlen.
    rewrite !count_if_filter. cbn [length]. lia.
Qed.

Lemma extract_builders_counts (rt : runtime) (rd : rendering)
    (registry : list (string * list RegistryEntry)) :
  ∀ bs t a b bs' t' a' b',
    extract_builders rt rd registry (bs, t, a, b) = Ok (bs', t', a', b') →
    NoDup (bs.*1 ++ registry.*1) →
    t' = t + length (concat registry.*2) ∧
    a' = a + length (List.filter allow_partial (concat registry.*2)) ∧
    b' = b + length (List.filter allow_parallel (concat registry.*2)) ∧
    ∃ added,
      bs' = bs ++ added ∧
      Forall2 (fun (item : string * list RegistryEntry)
                   (builder : string * builder_info) =>
                 builder.1 = item.1 ∧
                 length (versions builder.2) = length item.2)
        registry added.
Proof.
  induction registry as [|[builder_name entries] registry IH];
    intros bs t a b bs' t' a' b' Hwalk Hnodup.
  - injection Hwalk as <- <- <- <-. cbn. repeat split; try lia.
    exists []. by rewrite app_nil_r.
  - cbn [extract_builders] in Hwalk.
    destruct (extract_versions rt rd entries ([], a, b))
      as [[[vs a1] b1]|e] eqn:Hversions; [|discriminate].
    cbn [mbind result_bind] in Hwalk.
    destruct (extract_versions_counts _ _ _ _ _ _ _ _ _ Hversions)
      as (Hlen & -> & ->).
    cbn in Hnodup. apply NoDup_app in Hnodup as (Hleft & Hfresh & Hright).
    assert (builder_name ∉ bs.*1) as Hnew.
    { intros Hin. apply (Hfresh _ Hin). by left. }
    rewrite (dict_set_fresh _ _ _ Hnew) in Hwalk.
    destruct (IH _ _ _ _ _ _ _ _ Hwalk) as (-> & -> & -> & added & -> & Hadded).
    { rewrite fmap_app. cbn. rewrite <-app_assoc. cbn.
      apply NoDup_app. split; [done|]. split; [|done].
      intros x Hx. by apply Hfresh. }
    cbn [fmap list_fmap concat snd]. rewrite !List.filter_app, !length_app.
    repeat split; try lia.
    eexists. split; [by rewrite <-app_assoc|].
    cbn [app]. constructor; [|done]. by split.
Qed.

(** X18. When the walk completes, [total_entries] is the number of
    registry entries and [total_builders] the number of names;
    [builders_with_partial] and [builders_with_parallel] count the entries
    that allow it, so a builder with several such versions is counted once
    for each of them. *)
Theorem statistics_count_entries (rt : runtime) (rd : rendering)
    (document : metadata) :
  NoDup (REGISTRY rt).*1 →
  extract_builder_metadata rt rd = Ok document →
  total_builders (stats document) = length (REGISTRY rt) ∧
  total_entries (stats document) = length (all_entries rt) ∧
  builders_with_partial (stats document) =
    length (List.filter allow_partial (all_entries rt)) ∧
  builders_with_parallel (stats document) =
    length (List.filter allow_parallel (all_entries rt)).
Proof.
  intros Hnodup Hwalk. unfold extract_builder_metadata in Hwalk.
  destruct (extract_builders rt rd (REGISTRY rt) ([], 0, 0, 0))
    as [[[[bs t] a] b]|e] eqn:Hbuilders; [|discriminate].
  injection Hwalk as <-. cbn [stats total_builders total_entries
    builders_with_partial builders_with_parallel].
  destruct (extract_builders_counts _ _ _ _ _ _ _ _ _ _ _ Hbuilders Hnodup)
    as (-> & -> & -> & added & -> & Hadded).
  unfold all_entries. repeat split. cbn.
  symmetry. by eapply Forall2_length.
Qed.

Lemma statistics_count_entries_witness :
  ∃ document,
    extract_builder_metadata versions_runtime first_run = Ok document ∧
    total_builders (stats document) = 2 ∧
    total_entries (stats document) = 3 ∧
    builders_with_partial (stats document) = 2 ∧
    builders_with_parallel (stats document) = 2.
Proof.
  destruct (extract_builder_metadata versions_runtime first_run)
    as [document|e] eqn:Hwalk; [|discriminate Hwalk].
  exists document. split; [reflexivity|].
  apply (statistics_count_entries versions_runtime first_run document).
  - simpl. apply NoDup_cons. split; [|apply NoDup_singleton].
    intros Hin. apply list_elem_of_singleton in Hin. discriminate Hin.
  - exact Hwalk.
Defined.

Lemma flat_map_length_versions
    (registry : list (string * list RegistryEntry))
    (added : list (string * builder_info)) :
  Forall2 (fun (item : string * list RegistryEntry)
               (builder : string * builder_info) =>
             builder.1 = item.1 ∧
             length (versions builder.2) = length item.2)
    registry added →
  length (flat_map (fun kv : string * builder_info =>
                      map (convert_version kv.1) (versions kv.2)) added) =
  length (concat registry.*2).
Proof.
  induction 1 as [|item builder registry added [_ Hlen] _ IH]; [done|].
  cbn. rewrite !length_app, length_map, IH. lia.
Qed.

(** X19. The flattening loses nothing and invents nothing: the builders
    array of the extension format has one record for each registry entry,
    so its length is [total_entries]. *)
Theorem extension_has_one_record_per_entry (rt : runtime) (rd : rendering)
    (document : metadata) :
  NoDup (REGISTRY rt).*1 →
  extract_builder_metadata rt rd = Ok document →
  length (extension_builders document) = total_entries (stats document) ∧
  length (extension_builders document) = length (all_entries rt).
Proof.
  intros Hnodup Hwalk. unfold extract_builder_metadata in Hwalk.
  destruct (extract_builders rt rd (REGISTRY rt) ([], 0, 0, 0))
    as [[[[bs t] a] b]|e] eqn:Hbuilders; [|discriminate].
  injection Hwalk as <-.
  destruct (extract_builders_counts _ _ _ _ _ _ _ _ _ _ _ Hbuilders Hnodup)
    as (-> & -> & -> & added & -> & Hadded).
  unfold extension_builders, all_entries. cbn.
  by rewrite (flat_map_length_versions _ _ Hadded).
Qed.

Lemma extension_has_one_record_per_entry_witness :
  ∃ document,
    extract_builder_metadata versions_runtime first_run = Ok document ∧
    length (extension_builders document) = 3.
Proof.
  destruct (extract_builder_metadata versions_runtime first_run)
    as [document|e] eqn:Hwalk; [|discriminate Hwalk].
  exists document. split; [reflexivity|].
  destruct (extension_has_one_record_per_entry versions_runtime first_run
              document) as [_ Hlength].
  - simpl. apply NoDup_cons. split; [|apply NoDup_singleton].
    intros Hin. apply list_elem_of_singleton in Hin. discriminate Hin.
  - exact Hwalk.
  - exact Hlength.
Defined.

(** ** The files *)

(** X20. A run that completes has extracted the whole registry and has
    written exactly the two files: [builder_metadata.json] holds the
    extension format, [package_info.json] the package path, and every
    other file is as it was. *)
Theorem main_writes_two_files (rt : runtime) (rd : rendering)
    (output_dir : string) (files files' : gmap string pyvalue) :
  main rt rd output_dir files = Ok files' →
  ∃ document,
    extract_builder_metadata rt rd = Ok document ∧
    files' !! builder_metadata_json output_dir =
      Some (json_dump rd (convert_to_extension_format rt document)) ∧
    files' !! package_info_json output_dir =
      Some (VDict [("zetta_utils_package_path",
                    VStr (path_str (zetta_utils_package_path rt)))]) ∧
    ∀ path, path ≠ builder_metadata_json output_dir →
            path ≠ package_info_json output_dir →
            files' !! path = files !! path.
Proof.
  unfold main. intros Hmain.
  destruct (extract_builder_metadata rt rd) as [document|e].
  - cbn [mbind result_bind mret result_ret try_except] in Hmain.
    injection Hmain as <-. exists document. split; [done|].
    split; [|split].
    + rewrite lookup_insert_ne by (symmetry; apply output_files_differ).
      by rewrite lookup_insert_eq.
    + by rewrite lookup_insert_eq.
    + intros path Hmetadata Hpackage.
      by rewrite !lookup_insert_ne.
  - cbn [mbind result_bind try_except] in Hmain.
    by destruct (existsb _ _).
Qed.

Lemma main_writes_two_files_witness :
  ∃ files' document,
    main marker_runtime first_run "out" {["notes.txt" := VStr "keep"]} =
      Ok files' ∧
    extract_builder_metadata marker_runtime first_run = Ok document ∧
    files' !! "notes.txt" = Some (VStr "keep").
Proof.
  destruct (main marker_runtime first_run "out" {["notes.txt" := VStr "keep"]})
    as [files'|e] eqn:Hmain; [|discriminate Hmain].
  destruct (main_writes_two_files marker_runtime first_run "out" _ _ Hmain)
    as (document & Hwalk & _ & _ & Hothers).
  exists files', document. split; [reflexivity|]. split; [exact Hwalk|].
  rewrite Hothers; [reflexivity|discriminate|discriminate].
Defined.

(** ** What reaches the encoder *)

Lemma result_all_bind {A B} (P : B → Prop) (x : result A) (f : A → result B) :
  (∀ a, result_all P (f a)) → result_all P (x ≫= f).
Proof. intros Hf. destruct x; cbn; [apply Hf|done]. Qed.

Lemma result_all_try_except {A} (P : A → Prop) (x : result A)
    (handlers : list exn_class) (f : exception → result A) :
  result_all P x → (∀ e, result_all P (f e)) →
  result_all P (try_except x handlers f).
Proof.
  intros Hx Hf. destruct x as [a|e]; cbn; [done|].
  destruct (existsb _ _); [apply Hf|done].
Qed.

Lemma dict_set_Forall {V} (P : string * V → Prop) (k : string) (v : V)
    (d : list (string * V)) :
  P (k, v) → Forall P d → Forall P (dict_set k v d).
Proof.
  intros Hv. induction 1 as [|[k' v'] d Hhead Htail IH]; cbn.
  - by repeat constructor.
  - case_bool_decide; by constructor.
Qed.

Lemma extract_parameters_serializable (rt : runtime) (rd : rendering)
    (type_hints : list (string * pyvalue)) (params : list parameter) :
  ∀ parameters,
    Forall (fun kv : string * param_info => serializable_parameter kv.2)
      parameters →
    result_all
      (Forall (fun kv : string * param_info => serializable_parameter kv.2))
      (extract_parameters rt rd type_hints params parameters).
Proof.
  induction params as [|param params IH]; intros parameters Hall; [done|].
  cbn [extract_parameters]. rewrite extract_parameter_emitted.
  destruct (compare_default rt (p_default param)) as [compared|e]; [|done].
  cbn [mbind result_bind mret result_ret]. apply IH, dict_set_Forall; [|done].
  split; [apply emitted_type_info_serializable|].
  apply emitted_default_serializable.
Qed.

Lemma extract_function_signature_serializable (rt : runtime)
    (rd : rendering) (fn : pyvalue) :
  result_all
    (fun info =>
       Forall (fun kv : string * param_info => serializable_parameter kv.2)
         (parameters info))
    (extract_function_signature rt rd fn).
Proof.
  unfold extract_function_signature.
  apply result_all_try_except; [|intros e; constructor].
  apply result_all_bind; intros original_fn.
  apply result_all_bind; intros sig.
  apply result_all_bind; intros type_hints.
  pose proof (extract_parameters_serializable rt rd type_hints
                (sig_parameters sig) [] (Forall_nil_2 _)) as Hparameters.
  by destruct (extract_parameters rt rd type_hints (sig_parameters sig) []).
Qed.

Lemma extract_version_serializable (rt : runtime) (rd : rendering)
    (entry : RegistryEntry) :
  result_all serializable_version (extract_version rt rd entry).
Proof.
  unfold extract_version.
  pose proof (extract_function_signature_serializable rt rd (entry_fn entry))
    as Hparameters.
  destruct (extract_function_signature rt rd (entry_fn entry))
    as [info|e]; [|done].
  cbn [mbind result_bind].
  do 4 (apply result_all_bind; intros ?). exact Hparameters.
Qed.

Lemma extract_versions_serializable (rt : runtime) (rd : rendering)
    (entries : list RegistryEntry) :
  ∀ vs a b,
    Forall serializable_version vs →
    result_all (fun x => Forall serializable_version x.1.1)
      (extract_versions rt rd entries (vs, a, b)).
Proof.
  induction entries as [|entry entries IH]; intros vs a b Hvs; [done|].
  cbn [extract_versions].
  pose proof (extract_version_serializable rt rd entry) as Hversion.
  destruct (extract_version rt rd entry) as [version|e]; [|done].
  cbn [mbind result_bind]. apply IH, Forall_app. split; [done|].
  by constructor.
Qed.

Lemma extract_builders_serializable (rt : runtime) (rd : rendering)
    (registry : list (string * list RegistryEntry)) :
  ∀ bs t a b,
    Forall (fun kv : string * builder_info =>
              Forall serializable_version (versions kv.2)) bs →
    result_all (fun x => Forall (fun kv : string * builder_info =>
                           Forall serializable_version (versions kv.2))
                           x.1.1.1)
      (extract_builders rt rd registry (bs, t, a, b)).
Proof.
  induction registry as [|[builder_name entries] registry IH];
    intros bs t a b Hbs; [done|].
  cbn [extract_builders].
  pose proof (extract_versions_serializable rt rd entries [] a b
                (Forall_nil_2 _)) as Hversions.
  destruct (extract_versions rt rd entries ([], a, b))
    as [[[vs a1] b1]|e]; [|done].
  cbn [mbind result_bind]. apply IH, dict_set_Forall; done.
Qed.

Lemma convert_version_serializable (builder_name : string)
    (version : version_info) :
  serializable_version version → plain_required version →
  json_serializable (convert_version builder_name version) = true.
Proof.
  intros Hparameters Hrequired. unfold convert_version, convert_documentation.
  cbn [json_serializable forallb andb].
  assert (forallb json_serializable
            (map (fun kv : string * param_info => convert_parameter kv.2)
               (parameters (vi_signature version))) = true) as ->.
  { unfold serializable_version, plain_required in *.
    induction Hparameters as [|kv kvs [Hinfo Hdefault] _ IH]; [done|].
    apply Forall_cons in Hrequired as [Hkv Hkvs].
    cbn [map forallb]. rewrite (IH Hkvs), andb_true_r.
    unfold convert_parameter. cbn [json_serializable forallb].
    by rewrite Hinfo, Hdefault, Hkv. }
  assert (forallb (fun kv : string * pyvalue =>
                     let '(_, x) := kv in json_serializable x)
            (map (fun kv : string * string => (kv.1, VStr kv.2))
               (doc_parameters (documentation version))) = true) as ->; [|done].
  induction (doc_parameters (documentation version)) as [|[k d] ds IH];
    [done|exact IH].
Qed.

Lemma convert_versions_serializable (builder_name : string)
    (versions : list version_info) :
  Forall serializable_version versions → Forall plain_required versions →
  forallb json_serializable (map (convert_version builder_name) versions) =
    true.
Proof.
  induction 1 as [|version vs Hversion _ IH]; intros Hrequired; [done|].
  apply Forall_cons in Hrequired as [Hv Hvs].
  cbn [map forallb]. by rewrite convert_version_serializable, IH.
Qed.

(** X21. In the document of a completed walk the type information and
    the default of every parameter can be serialized as they are; the
    [default=str] fallback of [json.dump] can be needed for a [required]
    field only, and when every [required] field is a value of JSON the
    file holds the extension format itself. *)
Theorem extension_format_needs_no_fallback (rt : runtime) (rd : rendering)
    (document : metadata) :
  extract_builder_metadata rt rd = Ok document →
  Forall (fun kv : string * builder_info =>
            Forall serializable_version (versions kv.2))
    (builders document) ∧
  (Forall (fun kv : string * builder_info =>
             Forall plain_required (versions kv.2))
     (builders document) →
   json_serializable (convert_to_extension_format rt document) = true ∧
   json_dump rd (convert_to_extension_format rt document) =
     convert_to_extension_format rt document).
Proof.
  intros Hwalk.
  assert (Forall (fun kv : string * builder_info =>
                    Forall serializable_version (versions kv.2))
            (builders document)) as Hbuilders.
  { unfold extract_builder_metadata in Hwalk.
    pose proof (extract_builders_serializable rt rd (REGISTRY rt) [] 0 0 0
                  (Forall_nil_2 _)) as Hbuilders.
    destruct (extract_builders rt rd (REGISTRY rt) ([], 0, 0, 0))
      as [[[[bs t] a] b]|e]; [|discriminate].
    injection Hwalk as <-. exact Hbuilders. }
  split; [exact Hbuilders|]. intros Hrequired.
  assert (json_serializable (convert_to_extension_format rt document) = true)
    as Hjson; [|split; [done|by apply json_dump_serializable]].
  unfold convert_to_extension_format, extension_builders.
  cbn [json_serializable forallb andb].
  rewrite andb_true_r.
  induction Hbuilders as [|[k builder] bs Hbuilder _ IH]; [done|].
  apply Forall_cons in Hrequired as [Hk Hbs].
  cbn [flat_map]. rewrite forallb_app, (IH Hbs), andb_true_r.
  by apply convert_versions_serializable.
Qed.

Lemma extension_format_needs_no_fallback_witness :
  ∃ document,
    extract_builder_metadata marker_runtime first_run = Ok document ∧
    Forall (fun kv : string * builder_info =>
              Forall serializable_version (versions kv.2))
      (builders document) ∧
    json_dump first_run (convert_to_extension_format marker_runtime document) =
      convert_to_extension_format marker_runtime document.
Proof.
  destruct (extract_builder_metadata marker_runtime first_run)
    as [document|e] eqn:Hwalk; [|discriminate Hwalk].
  exists document. split; [reflexivity|].
  destruct (extension_format_needs_no_fallback marker_runtime first_run
              document Hwalk) as [Hserializable Hfile].
  split; [exact Hserializable|]. apply Hfile.
  injection Hwalk as <-. simpl. repeat constructor.
Defined.

(** ** The shape of the walk *)

Lemma extract_versions_records (rt : runtime) (rd : rendering)
    (entries : list RegistryEntry) :
  ∀ vs a b vs' a' b',
    extract_versions rt rd entries (vs, a, b) = Ok (vs', a', b') →
    ∃ records,
      vs' = vs ++ records ∧
      Forall2 (fun entry record => extract_version rt rd entry = Ok record)
        entries records.
Proof.
  induction entries as [|entry entries IH]; intros vs a b vs' a' b' Hwalk.
  - injection Hwalk as <- <- <-. exists []. by rewrite app_nil_r.
  - cbn [extract_versions] in Hwalk.
    destruct (extract_version rt rd entry) as [version|e] eqn:Hversion;
      [|discriminate].
    cbn [mbind result_bind] in Hwalk.
    destruct (IH _ _ _ _ _ _ Hwalk) as (records & -> & Hrecords).
    exists (version :: records). split; [by rewrite <-app_assoc|].
    by constructor.
Qed.

Lemma extract_builders_records (rt : runtime) (rd : rendering)
    (registry : list (string * list RegistryEntry)) :
  ∀ bs t a b bs' t' a' b',
    extract_builders rt rd registry (bs, t, a, b) = Ok (bs', t', a', b') →
    NoDup (bs.*1 ++ registry.*1) →
    ∃ added,
      bs' = bs ++ added ∧
      Forall2 (fun (item : string * list RegistryEntry)
                   (builder : string * builder_info) =>
                 builder.1 = item.1 ∧
                 bi_name builder.2 = item.1 ∧
                 Forall2
                   (fun entry record => extract_version rt rd entry = Ok record)
                   item.2 (versions builder.2) ∧
                 latest_version builder.2 = head (versions builder.2))
        registry added.
Proof.
  induction registry as [|[builder_name entries] registry IH];
    intros bs t a b bs' t' a' b' Hwalk Hnodup.
  - injection Hwalk as <- <- <- <-. exists []. by rewrite app_nil_r.
  - cbn [extract_builders] in Hwalk.
    destruct (extract_versions rt rd entries ([], a, b))
      as [[[vs a1] b1]|e] eqn:Hversions; [|discriminate].
    cbn [mbind result_bind] in Hwalk.
    destruct (extract_versions_records _ _ _ _ _ _ _ _ _ Hversions)
      as (records & -> & Hrecords).
    cbn in Hnodup. apply NoDup_app in Hnodup as (Hleft & Hfresh & Hright).
    assert (builder_name ∉ bs.*1) as Hnew.
    { intros Hin. apply (Hfresh _ Hin). by left. }
    rewrite (dict_set_fresh _ _ _ Hnew) in Hwalk.
    destruct (IH _ _ _ _ _ _ _ _ Hwalk) as (added & -> & Hadded).
    { rewrite fmap_app. cbn. rewrite <-app_assoc. cbn.
      apply NoDup_app. split; [done|]. split; [|done].
      intros x Hx. by apply Hfresh. }
    eexists. split; [by rewrite <-app_assoc|].
    cbn [app]. constructor; [|done]. by repeat split.
Qed.

(** X22. With distinct builder names the document lists the builders of
    the registry in their order, each under its name with the records of
    its registry entries in their order, and [latest_version] is the
    record of the builder's first registry entry, whatever the version
    specifiers say; it is absent when the builder has no entries. *)
Theorem latest_version_is_first_entry (rt : runtime) (rd : rendering)
    (document : metadata) :
  NoDup (REGISTRY rt).*1 →
  extract_builder_metadata rt rd = Ok document →
  Forall2 (fun (item : string * list RegistryEntry)
               (builder : string * builder_info) =>
             builder.1 = item.1 ∧
             bi_name builder.2 = item.1 ∧
             Forall2
               (fun entry record => extract_version rt rd entry = Ok record)
               item.2 (versions builder.2) ∧
             match item.2 with
             | [] => latest_version builder.2 = None
             | entry :: _ =>
                 ∃ record,
                   extract_version rt rd entry = Ok record ∧
                   latest_version builder.2 = Some record
             end)
    (REGISTRY rt) (builders document).
Proof.
  intros Hnodup Hwalk. unfold extract_builder_metadata in Hwalk.
  destruct (extract_builders rt rd (REGISTRY rt) ([], 0, 0, 0))
    as [[[[bs t] a] b]|e] eqn:Hbuilders; [|discriminate].
  injection Hwalk as <-. cbn [builders].
  destruct (extract_builders_records _ _ _ _ _ _ _ _ _ _ _ Hbuilders Hnodup)
    as (added & -> & Hadded).
  cbn [app]. eapply Forall2_impl; [exact Hadded|].
  intros [name entries] [k builder] (Hk & Hname & Hrecords & Hlatest).
  cbn [fst snd] in *. split; [done|]. split; [done|]. split; [done|].
  rewrite Hlatest. destruct Hrecords as [|entry record]; [done|].
  by exists record.
Qed.

Lemma latest_version_is_first_entry_witness :
  ∃ document,
    extract_builder_metadata versions_runtime first_run = Ok document ∧
    Forall2 (fun (item : string * list RegistryEntry)
                 (builder : string * builder_info) =>
               builder.1 = item.1 ∧
               bi_name builder.2 = item.1 ∧
               Forall2
                 (fun entry record =>
                    extract_version versions_runtime first_run entry =
                      Ok record)
                 item.2 (versions builder.2) ∧
               match item.2 with
               | [] => latest_version builder.2 = None
               | entry :: _ =>
                   ∃ record,
                     extract_version versions_runtime first_run entry =
                       Ok record ∧
                     latest_version builder.2 = Some record
               end)
      (REGISTRY versions_runtime) (builders document).
Proof.
  destruct (extract_builder_metadata versions_runtime first_run)
    as [document|e] eqn:Hwalk; [|discriminate Hwalk].
  exists document. split; [reflexivity|].
  apply (latest_version_is_first_entry versions_runtime first_run document).
  - simpl. apply NoDup_cons. split; [|apply NoDup_singleton].
    intros Hin. apply list_elem_of_singleton in Hin. discriminate Hin.
  - exact Hwalk.
Defined.

(** X23. The rich type information is kept exactly when every literal
    of the annotation can be serialized; otherwise every entry of it is
    replaced by its string form ([null] stays [null]). *)
Theorem type_info_falls_back_on_literals (rt : runtime) (rd : rendering)
    (type_hints : list (string * pyvalue)) (param : parameter)
    (info : param_info) :
  extract_parameter rt rd type_hints param = Ok info →
  let rich :=
    extract_type_info rd
      (default (p_annotation param) (dict_get (p_name param) type_hints)) in
  pi_type_info info =
    if forallb json_serializable (literals rich)
    then VDict (type_info_dict rich)
    else VDict (stringify_items rd (type_info_dict rich)).
Proof.
  intros Hinfo.
  apply extract_parameter_Ok in Hinfo as (required & is_sentinel & _ & ->).
  cbn [pi_type_info emitted_parameter]. unfold emitted_type_info.
  by rewrite type_info_dict_serializable.
Qed.

Lemma type_info_falls_back_on_literals_witness :
  ∃ info,
    extract_parameter marker_runtime first_run [] optional_parameter =
      Ok info ∧
    pi_type_info info =
      VDict (type_info_dict
               (extract_type_info first_run
                  (VAlias typing_Union [VClass "str"; NoneType]))).
Proof.
  destruct (extract_parameter marker_runtime first_run [] optional_parameter)
    as [info|e] eqn:Hinfo; [|discriminate Hinfo].
  exists info. split; [reflexivity|].
  apply (type_info_falls_back_on_literals marker_runtime first_run []
           optional_parameter info).
  exact Hinfo.
Defined.

(** ** One failure that is not covered *)

Lemma extract_versions_app (rt : runtime) (rd : rendering)
    (earlier later : list RegistryEntry) :
  ∀ acc,
    extract_versions rt rd (earlier ++ later) acc =
      extract_versions rt rd earlier acc ≫= extract_versions rt rd later.
Proof.
  induction earlier as [|entry earlier IH]; intros [[vs a] b]; [done|].
  cbn [app extract_versions].
  destruct (extract_version rt rd entry) as [version|e]; [|done].
  cbn [mbind result_bind]. apply IH.
Qed.

Lemma extract_builders_app (rt : runtime) (rd : rendering)
    (before after : list (string * list RegistryEntry)) :
  ∀ acc,
    extract_builders rt rd (before ++ after) acc =
      extract_builders rt rd before acc ≫= extract_builders rt rd after.
Proof.
  induction before as [|[builder_name entries] before IH];
    intros [[[bs t] a] b]; [done|].
  cbn [app extract_builders].
  destruct (extract_versions rt rd entries ([], a, b))
    as [[[vs a1] b1]|e]; [|done].
  cbn [mbind result_bind]. apply IH.
Qed.

(** X24. The walk is all or nothing: when the entries before it are
    handled and one entry raises an exception that no handler covers, the
    walk raises that exception and no document is returned, however many
    entries were already extracted. *)
Theorem first_uncovered_failure_ends_the_walk (rt : runtime) (rd : rendering)
    (before after : list (string * list RegistryEntry))
    (builder_name : string) (earlier later : list RegistryEntry)
    (entry : RegistryEntry) (e : exception) :
  REGISTRY rt = before ++ (builder_name, earlier ++ entry :: later) :: after →
  NoDup (REGISTRY rt).*1 →
  Forall (fun item => Forall (recoverable rt) item.2) before →
  Forall (recoverable rt) earlier →
  extract_version rt rd entry = Raise e →
  extract_builder_metadata rt rd = Raise e.
Proof.
  intros Hregistry Hnodup Hbefore Hearlier Hentry.
  unfold extract_builder_metadata. rewrite Hregistry in *.
  rewrite extract_builders_app.
  destruct (extract_builders_degraded rt rd before [] 0 0 0)
    as (added & t & a & b & -> & _); [|done|].
  { rewrite fmap_app in Hnodup. by apply NoDup_app in Hnodup as (? & _ & _). }
  cbn [mbind result_bind app extract_builders].
  rewrite extract_versions_app.
  destruct (extract_versions_degraded rt rd earlier Hearlier [] a b)
    as (records & a' & b' & -> & _).
  cbn [mbind result_bind app extract_versions]. by rewrite Hentry.
Qed.

Lemma first_uncovered_failure_ends_the_walk_witness :
  extract_builder_metadata bad_hint_runtime first_run =
    Raise (Exception SyntaxError "Forward reference must be an expression").
Proof.
  apply (first_uncovered_failure_ends_the_walk bad_hint_runtime first_run
           [] [] "build" [] [] sample_entry).
  - reflexivity.
  - simpl. apply NoDup_singleton.
  - constructor.
  - constructor.
  - reflexivity.
Defined.
